(** * Italian fiscal codes and VAT numbers

    A shallow embedding of [localflavor/it/util.py]: the syntactic check of a
    fiscal code ([ssn_isvalid]), the decoders ([ssn_get_birthday],
    [ssn_get_sex]), the two check digits ([ssn_check_digit],
    [vat_number_check_digit]) and the two validators ([ssn_validation],
    [vat_number_validation]), and [ssn_get_municipality], whose table of
    places is kept in another module and is a parameter here.

    Python values are modelled as follows.
    - A [str] is a list of code points; a code point is an [N].
    - An [int] is a [Z]; [//] and [%] are [Z.div] and [Z.modulo] (both floor).
    - A value is a [str], an [int] or [None] ([pyval]); floats and bytes are
      not modelled.
    - A call either returns or raises: [result A].
    - What the interpreter does with code points outside ASCII ([str.upper],
      and the digits and blanks [int] accepts) depends on its Unicode tables;
      how many digits [int] and [str] convert depends on its limit for
      integer string conversion ([sys.get_int_max_str_digits()]: 4300 unless
      set otherwise, none before Python 3.11). Both are fields of the class
      [Interpreter], about which nothing is assumed.
    - [assert] statements are executed; the numbers ["%02d"] formats here
      come from two characters; the lazy translation [_("...")] is its
      English text. *)

From Stdlib Require Import ZArith NArith List String Ascii Lia.
From Stdlib Require Import DecimalPos DecimalN.
From stdpp Require Import base option list gmap.

Local Open Scope Z_scope.

(** ** Text *)

Abbreviation char := N (only parsing).
Abbreviation str := (list N) (only parsing).

Definition ch (a : ascii) : char := N_of_ascii a.
Definition text (s : string) : str := map N_of_ascii (list_ascii_of_string s).

Definition LF : char := 10%N.

Definition in_range (lo hi c : char) : bool := ((lo <=? c) && (c <=? hi))%N.
Definition is_digit (c : char) : bool := in_range (ch "0") (ch "9") c.
Definition is_upper (c : char) : bool := in_range (ch "A") (ch "Z") c.
Definition is_lower (c : char) : bool := in_range (ch "a") (ch "z") c.
Definition is_ascii (c : char) : bool := (c <? 128)%N.

(** ** Values, exceptions, results *)

Inductive pyval :=
| PyStr (s : str)
| PyInt (n : Z)
| PyNone.

(** [ValueError msg] is [raise ValueError(msg)]; [InvalidLiteral lit] is the
    [ValueError] of [int(lit)] ("invalid literal for int() with base 10");
    [ExceedsDigitLimit] is the [ValueError] of [int] and of [str] when there
    are more digits than the interpreter converts ("Exceeds the limit (...)
    for integer string conversion"); [NotInList x] is the [ValueError] of
    [list.index(x)]. *)
Inductive exn :=
| ValueError (msg : str)
| InvalidLiteral (lit : str)
| ExceedsDigitLimit
| NotInList (x : str)
| TypeError
| IndexError
| AssertionError.

Inductive result (A : Type) :=
| Ok (a : A)
| Raise (e : exn).
Arguments Ok {A} a.
Arguments Raise {A} e.

#[global] Instance result_ret : MRet result := fun A a => Ok a.
#[global] Instance result_bind : MBind result := fun A B f m =>
  match m with
  | Ok a => f a
  | Raise e => Raise e
  end.

(** [s[i]] for [0 <= i]. *)
Definition getitem {A} (s : list A) (i : nat) : result A :=
  match s !! i with
  | Some c => Ok c
  | None => Raise IndexError
  end.

(** [s[i:j]] for [0 <= i <= j]: never raises, clips at the end. *)
Definition slice {A} (s : list A) (i j : nat) : list A := take (j - i) (drop i s).

(** ** Regular expressions: the fragment of [re] that [PATTERN] uses *)

Inductive regex :=
| Bol
| Eol
| Class (ranges : list (char * char))
| Cat (r1 r2 : regex)
| Alt (r1 r2 : regex)
| Rep (r : regex) (n : nat)
| Group (r : regex).

Definition in_class (ranges : list (char * char)) (c : char) : bool :=
  existsb (fun lh => in_range (fst lh) (snd lh) c) ranges.

(** [$] without [re.MULTILINE]: at the end of the string, or just before a
    newline that is the last character. *)
Definition at_eol (rest : str) : bool :=
  match rest with
  | [] => true
  | [c] => (c =? LF)%N
  | _ => false
  end.

(** All the ways [r] matches at a position: a position is the number of
    characters consumed and the text that remains. *)
Fixpoint rmatch (r : regex) (st : nat * str) : list (nat * str) :=
  match r with
  | Bol => if (fst st =? 0)%nat then [st] else []
  | Eol => if at_eol (snd st) then [st] else []
  | Class ranges =>
      match snd st with
      | c :: rest => if in_class ranges c then [(S (fst st), rest)] else []
      | [] => []
      end
  | Cat r1 r2 => flat_map (rmatch r2) (rmatch r1 st)
  | Alt r1 r2 => rmatch r1 st ++ rmatch r2 st
  | Rep r n => Nat.iter n (flat_map (rmatch r)) [st]
  | Group r => rmatch r st
  end.

(** [re.match(p, s) is not None] *)
Definition re_match (p : regex) (s : str) : bool :=
  match rmatch p (0%nat, s) with
  | [] => false
  | _ :: _ => true
  end.

Definition cat_all (rs : list regex) : regex :=
  match rs with
  | [] => Rep Bol 0
  | r :: rs' => fold_left Cat rs' r
  end.

Definition lit (a : ascii) : char * char := (ch a, ch a).
Definition AZ : regex := Class [(ch "A", ch "Z")].
Definition D09 : regex := Class [(ch "0", ch "9")].

Definition PATTERN : regex :=
  cat_all
    [ Bol; Rep AZ 6; Rep D09 2;
      Group (Class [lit "A"; lit "B"; lit "C"; lit "D"; lit "E"; lit "H";
                    lit "L"; lit "M"; lit "P"; lit "R"; lit "S"; lit "T"]);
      Rep D09 2; AZ; D09; Group (Alt AZ D09); D09; AZ; Eol ].

Definition MONTHSCODE : list str :=
  [text "A"; text "B"; text "C"; text "D"; text "E"; text "H";
   text "L"; text "M"; text "P"; text "R"; text "S"; text "T"].

Definition ssn_isvalid (code : pyval) : bool :=
  match code with
  | PyStr s => re_match PATTERN s
  | _ => false
  end.

(** ** Built-ins *)

(** The interpreter's Unicode tables, outside ASCII: [upper_ext c] is
    [c.upper()], [space_ext c] says whether [int] takes [c] for a blank, and
    [decimal_ext c] is the value of [c] when [int] takes it for a digit.

    Its limit for integer string conversion: an interpreter accepts no limit
    below 640 digits, so that [digits_above_640] is [Some k] when the limit
    is [640 + k] digits ([Some 3660] for the default of 4300), and [None]
    when there is none ([sys.set_int_max_str_digits(0)], or an interpreter
    older than Python 3.11). *)
Class Interpreter := {
  upper_ext : char -> str;
  space_ext : char -> bool;
  decimal_ext : char -> option N;
  digits_above_640 : option N
}.

(** [sys.get_int_max_str_digits()], where [None] is its [0]. *)
Definition int_max_str_digits `{Interpreter} : option N :=
  (fun k => 640 + k)%N <$> digits_above_640.

(** Whether [digits] digits are more than [int] and [str] convert. *)
Definition exceeds_limit `{Interpreter} (digits : nat) : bool :=
  match int_max_str_digits with
  | Some limit => (limit <? N.of_nat digits)%N
  | None => false
  end.

(** A generic truth test for [a and b or c]. *)
Definition and_or {A} (truthy : A -> bool) (a : bool) (b c : A) : A :=
  if a then (if truthy b then b else c) else c.

Definition int_truthy (n : Z) : bool := negb (n =? 0).
Definition str_truthy (s : str) : bool := negb (bool_decide (s = [])).

(** [range(start, stop, step)] for a positive [step]. *)
Definition range (start stop step : nat) : list nat :=
  filter (fun i => ((i - start) mod step)%nat = 0%nat) (seq start (stop - start)).

(** [for i in indices: state = body(i, state)], stopping at the first raise. *)
Fixpoint for_each {S} (indices : list nat) (body : nat -> S -> result S) (s : S)
  : result S :=
  match indices with
  | [] => Ok s
  | i :: rest => s' ← body i s; for_each rest body s'
  end.

(** [l.index(x)] *)
Fixpoint list_index (x : str) (l : list str) : option nat :=
  match l with
  | [] => None
  | y :: l' => if bool_decide (y = x) then Some 0%nat else S <$> list_index x l'
  end.

(** The decimal representation of a number. *)
Fixpoint uint_digits (d : Decimal.uint) : list N :=
  match d with
  | Decimal.Nil => []
  | Decimal.D0 d => 0%N :: uint_digits d
  | Decimal.D1 d => 1%N :: uint_digits d
  | Decimal.D2 d => 2%N :: uint_digits d
  | Decimal.D3 d => 3%N :: uint_digits d
  | Decimal.D4 d => 4%N :: uint_digits d
  | Decimal.D5 d => 5%N :: uint_digits d
  | Decimal.D6 d => 6%N :: uint_digits d
  | Decimal.D7 d => 7%N :: uint_digits d
  | Decimal.D8 d => 8%N :: uint_digits d
  | Decimal.D9 d => 9%N :: uint_digits d
  end.

Definition digit_char (d : N) : char := (ch "0" + d)%N.
Definition str_of_N (n : N) : str := map digit_char (uint_digits (N.to_uint n)).
Definition str_of_int (z : Z) : str :=
  if z <? 0 then ch "-" :: str_of_N (Z.abs_N z) else str_of_N (Z.to_N z).

(** [s.zfill(width)]: the zeros go after a leading sign. *)
Definition zfill (s : str) (width : nat) : str :=
  let fill := replicate (width - length s) (ch "0") in
  match s with
  | c :: t => if (c =? ch "+")%N || (c =? ch "-")%N then c :: fill ++ t else fill ++ s
  | [] => fill
  end.

(** ["%02d" % n], for the numbers of at most two digits formatted here: they
    are within every limit. *)
Definition fmt_02d (n : Z) : str := zfill (str_of_int n) 2.

(** [str(n)]: the decimal representation, unless it has more digits than the
    interpreter converts; the sign is not counted. *)
Definition count_digits (n : Z) : nat := length (str_of_N (Z.abs_N n)).

Definition py_str `{Interpreter} (n : Z) : result str :=
  if exceeds_limit (count_digits n) then Raise ExceedsDigitLimit
  else Ok (str_of_int n).

(** [int(s)] for a [str], base 10: blanks, an optional sign, then digits,
    where single underscores may separate digits, then blanks. A code point
    outside ASCII is first replaced by a space, by its ASCII digit, or by
    ["?"]. The digits are counted, leading zeros included, once the run of
    digits and underscores is read and before what follows it is looked at:
    too many digits raise [ExceedsDigitLimit] whatever follows them. *)
Definition is_space (c : char) : bool := in_range 9%N 13%N c || (c =? 32)%N.

Definition int_ascii_char `{Interpreter} (c : char) : char :=
  if is_ascii c then c
  else if space_ext c then ch " "
  else match decimal_ext c with
       | Some d => if (d <? 10)%N then digit_char d else ch "?"
       | None => ch "?"
       end.

Fixpoint lstrip (s : str) : str :=
  match s with
  | c :: t => if is_space c then lstrip t else s
  | [] => []
  end.

Definition is_digit_or_underscore (c : char) : bool :=
  is_digit c || (c =? ch "_")%N.

(** The longest prefix of [s] whose characters satisfy [p], and the rest. *)
Fixpoint take_while (p : char -> bool) (s : str) : str :=
  match s with
  | c :: t => if p c then c :: take_while p t else []
  | [] => []
  end.

Fixpoint drop_while (p : char -> bool) (s : str) : str :=
  match s with
  | c :: t => if p c then drop_while p t else s
  | [] => []
  end.

Fixpoint int_digits (after_digit : bool) (acc : N) (s : str) : option N :=
  match s with
  | [] => if after_digit then Some acc else None
  | c :: t =>
      if is_digit c then int_digits true (10 * acc + (c - ch "0"))%N t
      else if (c =? ch "_")%N && after_digit then int_digits false acc t
      else None
  end.

(** Whether there is a minus sign, and what follows the sign if any. *)
Definition int_sign (s : str) : bool * str :=
  match s with
  | c :: t =>
      if (c =? ch "-")%N then (true, t)
      else if (c =? ch "+")%N then (false, t)
      else (false, s)
  | [] => (false, [])
  end.

Definition int_of_str `{Interpreter} (s : str) : result Z :=
  let signed := int_sign (lstrip (map int_ascii_char s)) in
  let run := take_while is_digit_or_underscore (snd signed) in
  let rest := drop_while is_digit_or_underscore (snd signed) in
  match int_digits false 0 run with
  | None => Raise (InvalidLiteral s)
  | Some n =>
      if exceeds_limit (length (List.filter is_digit run))
      then Raise ExceedsDigitLimit
      else if bool_decide (lstrip rest = [])
      then Ok (if fst signed then - Z.of_N n else Z.of_N n)
      else Raise (InvalidLiteral s)
  end.

(** [int(v)] *)
Definition py_int `{Interpreter} (v : pyval) : result Z :=
  match v with
  | PyStr s => int_of_str s
  | PyInt n => Ok n
  | PyNone => Raise TypeError
  end.

(** [s.upper()]: code point by code point. *)
Definition upper_char `{Interpreter} (c : char) : str :=
  if is_ascii c then (if is_lower c then [(c - 32)%N] else [c]) else upper_ext c.

Definition upper `{Interpreter} (s : str) : str := flat_map upper_char s.

(** [chr(x)] *)
Definition chr (x : Z) : str := [Z.to_N x].

(** django's [smart_text]: a [str] as it is, [str(v)] otherwise. *)
Definition smart_text `{Interpreter} (v : pyval) : result str :=
  match v with
  | PyStr s => Ok s
  | PyInt n => py_str n
  | PyNone => Ok (text "None")
  end.

(** ** The functions of [util.py] *)

Section Util.
Context `{py : Interpreter}.

(** [assert ssn_isvalid(code)], after which [code] is a [str]. *)
Definition assert_valid (code : pyval) : result str :=
  if ssn_isvalid code then
    match code with
    | PyStr s => Ok s
    | _ => Raise AssertionError
    end
  else Raise AssertionError.

Definition ssn_get_birthday (code : pyval) : result str :=
  code ← assert_valid code;
  day ← int_of_str (slice code 9 11);
  let day := and_or int_truthy (day <? 32) day (day - 40) in
  c ← getitem code 8;
  month ← match list_index [c] MONTHSCODE with
          | Some i => Ok (Z.of_nat i + 1)
          | None => Raise (NotInList [c])
          end;
  year ← int_of_str (slice code 6 8);
  Ok (fmt_02d day ++ text "/" ++ fmt_02d month ++ text "/" ++ fmt_02d year).

Definition ssn_get_sex (code : pyval) : result str :=
  code ← assert_valid code;
  raw ← int_of_str (slice code 9 11);
  Ok (and_or str_truthy (raw <? 32) (text "M") (text "F")).

Definition ssn_even_chars : gmap char Z :=
  list_to_map
    [ (ch "0", 0); (ch "1", 1); (ch "2", 2); (ch "3", 3); (ch "4", 4);
      (ch "5", 5); (ch "6", 6); (ch "7", 7); (ch "8", 8); (ch "9", 9);
      (ch "A", 0); (ch "B", 1); (ch "C", 2); (ch "D", 3); (ch "E", 4);
      (ch "F", 5); (ch "G", 6); (ch "H", 7); (ch "I", 8); (ch "J", 9);
      (ch "K", 10); (ch "L", 11); (ch "M", 12); (ch "N", 13); (ch "O", 14);
      (ch "P", 15); (ch "Q", 16); (ch "R", 17); (ch "S", 18); (ch "T", 19);
      (ch "U", 20); (ch "V", 21); (ch "W", 22); (ch "X", 23); (ch "Y", 24);
      (ch "Z", 25) ].

Definition ssn_odd_chars : gmap char Z :=
  list_to_map
    [ (ch "0", 1); (ch "1", 0); (ch "2", 5); (ch "3", 7); (ch "4", 9);
      (ch "5", 13); (ch "6", 15); (ch "7", 17); (ch "8", 19); (ch "9", 21);
      (ch "A", 1); (ch "B", 0); (ch "C", 5); (ch "D", 7); (ch "E", 9);
      (ch "F", 13); (ch "G", 15); (ch "H", 17); (ch "I", 19); (ch "J", 21);
      (ch "K", 2); (ch "L", 4); (ch "M", 18); (ch "N", 20); (ch "O", 11);
      (ch "P", 3); (ch "Q", 6); (ch "R", 8); (ch "S", 12); (ch "T", 14);
      (ch "U", 16); (ch "V", 10); (ch "W", 22); (ch "X", 25); (ch "Y", 24);
      (ch "Z", 23) ].

(** Chars from 'A' to 'Z' *)
Definition ssn_check_digits : list str := map (fun x => chr (Z.of_nat x)) (seq 65 26).

Definition not_allowed (c : char) : exn :=
  ValueError (text "Character '" ++ [c] ++ text "' is not allowed.").

(** The body of the loop of [ssn_check_digit]: a [KeyError] of either table
    is caught and turned into the [ValueError]; the [IndexError] of [ssn[i]]
    is not. *)
Definition ssn_step (ssn : str) (i : nat) (total : Z) : result Z :=
  c ← getitem ssn i;
  match (if (i mod 2 =? 0)%nat then ssn_odd_chars else ssn_even_chars) !! c with
  | Some w => Ok (total + w)
  | None => Raise (not_allowed c)
  end.

Definition ssn_check_digit (value : str) : result str :=
  let ssn := upper value in
  total ← for_each (range 0 15 1) (ssn_step ssn) 0;
  getitem ssn_check_digits (Z.to_nat (total mod 26)).

Definition check_digit_mismatch : exn :=
  ValueError (text "Check digit does not match.").

Definition ssn_validation (ssn_value : str) : result str :=
  check_digit ← ssn_check_digit ssn_value;
  c ← getitem ssn_value 15;
  if bool_decide ([c] ≠ check_digit) then Raise check_digit_mismatch
  else Ok ssn_value.

Definition vat_number_check_digit (vat_number : pyval) : result str :=
  as_text ← smart_text vat_number;
  let normalized_vat_number := zfill as_text 10 in
  total ← for_each (range 0 10 2)
            (fun i total =>
               c ← getitem normalized_vat_number i;
               d ← int_of_str [c];
               Ok (total + d)) 0;
  total ← for_each (range 1 11 2)
            (fun i total =>
               c ← getitem normalized_vat_number i;
               d ← int_of_str [c];
               let quotient := (d * 2) / 10 in
               let remainder := (d * 2) mod 10 in
               Ok (total + (quotient + remainder))) total;
  smart_text (PyInt ((10 - total mod 10) mod 10)).

Definition vat_number_validation (vat_number : pyval) : result str :=
  n ← py_int vat_number;
  as_text ← py_str n;
  let vat_number := zfill as_text 11 in
  check_digit ← vat_number_check_digit (PyStr (slice vat_number 0 10));
  c ← getitem vat_number 10;
  if bool_decide ([c] ≠ check_digit) then Raise check_digit_mismatch
  else smart_text (PyStr vat_number).

End Util.

(** [ssn_get_municipality] reads [CODICI_CHOICES], a dictionary from cadastral
    codes to place names that [it_codici] defines: it is a parameter here. *)
Section Municipality.
Variable CODICI_CHOICES : gmap (list N) (list N).

(** [s[-a:-b]] for [0 < b <= a]: both ends are counted from the end of [s]
    and clipped at its start. *)
Definition slice_from_end {A} (s : list A) (a b : nat) : list A :=
  slice s (length s - a) (length s - b).

(** [d.get(key, default)] *)
Definition dict_get (d : gmap (list N) (list N)) (key default : str) : str :=
  match d !! key with
  | Some v => v
  | None => default
  end.

Definition ssn_get_municipality (code : pyval) : result str :=
  code ← assert_valid code;
  Ok (dict_get CODICI_CHOICES (slice_from_end code 5 1) (text "Altro")).

End Municipality.

(** An interpreter with nothing outside ASCII and the default limit of 4300
    digits: for running examples. *)
Definition ascii_only : Interpreter :=
  {| upper_ext := fun c => [c]; space_ext := fun _ => false;
     decimal_ext := fun _ => None; digits_above_640 := Some 3660%N |}.

(** The same without a limit. *)
Definition ascii_no_limit : Interpreter :=
  {| upper_ext := fun c => [c]; space_ext := fun _ => false;
     decimal_ext := fun _ => None; digits_above_640 := None |}.

(** A number of 4301 digits: those of ["12345670017"], whose last digit is
    the check digit of the first ten, then 4290 zeros. *)
Definition number_of_4301_digits : Z := 12345670017 * 10 ^ 4290.

(** * The specification's vocabulary

    The functions of the specification are those of the code under other
    names: [is_valid_fiscal_code] is [ssn_isvalid], [get_birthday] is
    [ssn_get_birthday], [get_sex] is [ssn_get_sex], [validate_ssn] is
    [ssn_validation], [vat_check_digit] is [vat_number_check_digit] and
    [validate_vat_number] is [vat_number_validation]. Its errors are all
    [ValueError] in the code: [InvalidCharacterError] is [not_allowed c],
    [ChecksumMismatchError] is [check_digit_mismatch], and [FormatError] is
    what [int] raises on the input of [vat_number_validation]. *)

(** ** The fiscal-code checksum *)

(** The alphabet [[0-9A-Z]]. *)
Definition is_alnum (c : char) : bool := is_digit c || is_upper c.

(** The weight tables of the specification: for the digits ['0'..'9'] and for
    the letters ['A'..'Z']. *)
Definition odd_table_digits : list Z := [1; 0; 5; 7; 9; 13; 15; 17; 19; 21].
Definition odd_table_letters : list Z :=
  [1; 0; 5; 7; 9; 13; 15; 17; 19; 21; 2; 4; 18; 20; 11; 3; 6; 8; 12; 14; 16;
   10; 22; 25; 24; 23].
Definition even_table_digits : list Z := [0; 1; 2; 3; 4; 5; 6; 7; 8; 9].
Definition even_table_letters : list Z :=
  [0; 1; 2; 3; 4; 5; 6; 7; 8; 9; 10; 11; 12; 13; 14; 15; 16; 17; 18; 19; 20;
   21; 22; 23; 24; 25].

Definition table_weight (digits letters : list Z) (c : char) : Z :=
  if is_digit c then nth (N.to_nat (c - ch "0")) digits 0
  else nth (N.to_nat (c - ch "A")) letters 0.

(** The weight of the character [c] at the 0-based index [i]: from the
    odd-position table when [i] is even, from the even-position table when
    [i] is odd. *)
Definition spec_weight (i : nat) (c : char) : Z :=
  if Nat.even i then table_weight odd_table_digits odd_table_letters c
  else table_weight even_table_digits even_table_letters c.

(** The sum of the weights of the first 15 characters. *)
Definition weighted_sum (ssn : str) : Z :=
  foldr Z.add 0 (imap spec_weight (take 15 ssn)).

(** The first of the first 15 characters that is outside [[0-9A-Z]]. *)
Definition first_offending (ssn : str) : option char :=
  find (fun c => negb (is_alnum c)) (take 15 ssn).

(** ** The structural pattern, position by position *)

Definition month_letters : str := text "ABCDEHLMPRST".
Definition is_month (c : char) : bool := existsb (N.eqb c) month_letters.

(** [[A-Z]{6}[0-9]{2}[ABCDEHLMPRST][0-9]{2}[A-Z][0-9][A-Z0-9][0-9][A-Z]] *)
Definition fiscal_shape : list (char -> bool) :=
  replicate 6 is_upper ++ replicate 2 is_digit ++ [is_month]
  ++ replicate 2 is_digit ++ [is_upper; is_digit; is_alnum; is_digit; is_upper].

(** [s] has exactly 16 characters, each in the class of its position. *)
Definition has_shape (s : str) : bool :=
  (length s =? 16)%nat && forallb (fun pc => fst pc (snd pc)) (zip fiscal_shape s).

(** ** The fields of a fiscal code *)

(** The value of a digit, and of the two digits at the 0-based indices [i]
    and [i + 1]. *)
Definition digit_value (c : char) : Z := Z.of_N (c - ch "0").
Definition two_digits (s : str) (i : nat) : Z :=
  10 * digit_value (nth i s 0%N) + digit_value (nth (S i) s 0%N).

(** The 1-based index of a letter in [A,B,C,D,E,H,L,M,P,R,S,T]. *)
Definition month_number (c : char) : Z :=
  match list_find (fun x => x = c) month_letters with
  | Some (i, _) => Z.of_nat i + 1
  | None => 0
  end.

(** The birthday as the specification describes it: 40 is taken off the day
    exactly when the two digits are above 31. *)
Definition spec_birthday (s : str) : str :=
  let raw := two_digits s 9 in
  let day := if 31 <? raw then raw - 40 else raw in
  fmt_02d day ++ text "/" ++ fmt_02d (month_number (nth 8 s 0%N)) ++ text "/"
  ++ fmt_02d (two_digits s 6).

(** ** The VAT check digit *)

(** The number a string of digits denotes. *)
Definition digits_value (ds : str) : N :=
  fold_left (fun acc c => (10 * acc + (c - ch "0"))%N) ds 0%N.

(** What a digit [d] at an odd 0-based position adds to the sum. *)
Definition luhn_digit (d : Z) : Z := (2 * d) / 10 + (2 * d) mod 10.

(** The sum over the first 10 characters. *)
Definition vat_sum (s : str) : Z :=
  foldr Z.add 0 (map (fun i => digit_value (nth i s 0%N)) [0; 2; 4; 6; 8]%nat)
  + foldr Z.add 0
      (map (fun i => luhn_digit (digit_value (nth i s 0%N))) [1; 3; 5; 7; 9]%nat).

Definition spec_vat_digit (s : str) : str :=
  [digit_char (Z.to_N ((10 - vat_sum s mod 10) mod 10))].

(** * Definitions the proofs use *)

(** Running a sequence of regular expressions from a list of positions, and
    whether any way through is left. *)
Definition run (rs : list regex) (sts : list (nat * str)) : list (nat * str) :=
  fold_left (fun sts r => flat_map (rmatch r) sts) rs sts.

Definition accepts (rs : list regex) (n : nat) (s : str) : bool :=
  match run rs [(n, s)] with
  | [] => false
  | _ :: _ => true
  end.

(** The number a list of digit values denotes, most significant first,
    continuing from [acc]. *)
Definition value_from (acc : N) (ds : list N) : N :=
  fold_left (fun acc d => (10 * acc + d)%N) ds acc.

(** The checks made of every code point below 91. *)
Definition tables_agree (c : char) : bool :=
  implb (is_alnum c)
    (bool_decide (ssn_odd_chars !! c
                  = Some (table_weight odd_table_digits odd_table_letters c))
     && bool_decide (ssn_even_chars !! c
                     = Some (table_weight even_table_digits even_table_letters c))).

Definition months_agree (c : char) : bool :=
  implb (is_month c)
    (bool_decide ((fun i => Z.of_nat i + 1) <$> list_index [c] MONTHSCODE
                  = Some (month_number c))).

(** Two digits, or two capital letters. *)
Definition same_kind (x y : char) : bool :=
  (is_digit x && is_digit y) || (is_upper x && is_upper y).

(** The check that two different characters of one kind weigh differently,
    in both tables, and that weights are between 0 and 25. *)
Definition weights_differ (x y : char) : bool :=
  implb (same_kind x y && negb (x =? y)%N)
    (negb (table_weight odd_table_digits odd_table_letters x
           =? table_weight odd_table_digits odd_table_letters y)
     && negb (table_weight even_table_digits even_table_letters x
              =? table_weight even_table_digits even_table_letters y)).

Definition weight_bounded (x : char) : bool :=
  (0 <=? table_weight odd_table_digits odd_table_letters x)
  && (table_weight odd_table_digits odd_table_letters x <=? 25)
  && (0 <=? table_weight even_table_digits even_table_letters x)
  && (table_weight even_table_digits even_table_letters x <=? 25).

(** A table with one place: for running examples. *)
Definition one_place : gmap (list N) (list N) := {[ text "D969" := text "Genova" ]}.

(** * Proofs *)

(** The two examples of the docstring of [ssn_isvalid]. *)
Example ssn_isvalid_doc1 : ssn_isvalid (PyStr (text "RCCMNL83S18D969H")) = true.
Proof. reflexivity. Qed.

Example ssn_isvalid_doc2 : ssn_isvalid (PyStr (text "RCCMNL83S18D969")) = false.
Proof. reflexivity. Qed.

(** ** Checking a property of every small code point by enumeration *)

Lemma forall_below (P : N -> bool) (b : nat) :
  forallb P (map N.of_nat (seq 0 b)) = true ->
  forall c, (c < N.of_nat b)%N -> P c = true.
Proof.
  intros Hall c Hc. rewrite forallb_forall in Hall. apply Hall.
  apply in_map_iff. exists (N.to_nat c). split; [apply N2Nat.id|].
  apply in_seq. lia.
Qed.

(** Comparisons of code points, from [bool] to [Prop], for [lia]. *)
Ltac char_consts :=
  repeat match goal with
    | |- context [ch ?a] =>
        let v := eval vm_compute in (ch a) in change (ch a) with v
    | H : context [ch ?a] |- _ =>
        let v := eval vm_compute in (ch a) in change (ch a) with v in H
    | |- context [N_of_ascii ?a] =>
        let v := eval vm_compute in (N_of_ascii a) in change (N_of_ascii a) with v
    | H : context [N_of_ascii ?a] |- _ =>
        let v := eval vm_compute in (N_of_ascii a) in
        change (N_of_ascii a) with v in H
    end.

Ltac char_lia :=
  unfold is_alnum, is_digit, is_upper, is_lower, is_ascii, is_space, in_range, LF in *;
  char_consts;
  repeat match goal with
    | H : _ && _ = true |- _ => apply andb_true_iff in H; destruct H
    | H : _ || _ = false |- _ => apply orb_false_iff in H; destruct H
    | H : negb _ = true |- _ => apply negb_true_iff in H
    | H : negb _ = false |- _ => apply negb_false_iff in H
    | H : _ || _ = true |- _ => apply orb_true_iff in H; destruct H
    | H : _ && _ = false |- _ => apply andb_false_iff in H; destruct H
    | H : (_ <=? _)%N = true |- _ => apply N.leb_le in H
    | H : (_ <=? _)%N = false |- _ => apply N.leb_gt in H
    | H : (_ <? _)%N = true |- _ => apply N.ltb_lt in H
    | H : (_ <? _)%N = false |- _ => apply N.ltb_ge in H
    | H : (_ =? _)%N = true |- _ => apply N.eqb_eq in H
    | H : (_ =? _)%N = false |- _ => apply N.eqb_neq in H
    end;
  repeat match goal with
    | |- _ && _ = true => apply andb_true_iff; split
    | |- _ || _ = false => apply orb_false_iff; split
    | |- negb _ = true => apply negb_true_iff
    | |- negb _ = false => apply negb_false_iff
    | |- (_ <=? _)%N = true => apply N.leb_le
    | |- (_ <=? _)%N = false => apply N.leb_gt
    | |- (_ <? _)%N = true => apply N.ltb_lt
    | |- (_ <? _)%N = false => apply N.ltb_ge
    | |- (_ =? _)%N = true => apply N.eqb_eq
    | |- (_ =? _)%N = false => apply N.eqb_neq
    end;
  lia.

Lemma is_alnum_below c : is_alnum c = true -> (c < N.of_nat 91)%N.
Proof. intros H. char_lia. Qed.

Lemma tables_agree_below : forallb tables_agree (map N.of_nat (seq 0 91)) = true.
Proof. vm_compute. reflexivity. Qed.

Lemma chars_alnum c :
  is_alnum c = true ->
  ssn_odd_chars !! c = Some (table_weight odd_table_digits odd_table_letters c)
  /\ ssn_even_chars !! c = Some (table_weight even_table_digits even_table_letters c).
Proof.
  intros Hc.
  pose proof (forall_below _ _ tables_agree_below c (is_alnum_below c Hc)) as H.
  unfold tables_agree in H. rewrite Hc in H. cbn [implb] in H.
  apply andb_true_iff in H as [H1 H2].
  split; eapply bool_decide_eq_true; eassumption.
Qed.

Lemma chars_not_alnum c :
  is_alnum c = false -> ssn_odd_chars !! c = None /\ ssn_even_chars !! c = None.
Proof.
  intros Hc.
  split; apply not_elem_of_list_to_map_1; intros Hin;
    apply list_elem_of_In in Hin;
    match type of Hin with
    | In _ ?keys =>
        assert (Hk : forallb is_alnum keys = true) by (vm_compute; reflexivity);
        rewrite forallb_forall in Hk; apply Hk in Hin; congruence
    end.
Qed.

(** ** The loop of [ssn_check_digit] *)

Lemma ssn_step_alnum ssn i c total :
  ssn !! i = Some c -> is_alnum c = true ->
  ssn_step ssn i total = Ok (total + spec_weight i c).
Proof.
  intros Hi Hc. unfold ssn_step, getitem. rewrite Hi. cbn [mbind result_bind].
  destruct (chars_alnum c Hc) as [Hodd Heven]. unfold spec_weight.
  destruct (Nat.even i) eqn:He.
  - apply Nat.even_spec in He. destruct He as [k ->].
    replace ((2 * k) mod 2 =? 0)%nat with true.
    + by rewrite Hodd.
    + symmetry. apply Nat.eqb_eq. rewrite Nat.mul_comm. by apply Nat.Div0.mod_mul.
  - replace (i mod 2 =? 0)%nat with false.
    + by rewrite Heven.
    + symmetry. apply Nat.eqb_neq. intros Hm.
      apply Nat.Div0.mod_divides in Hm as [k ->].
      rewrite Nat.even_mul in He. discriminate.
Qed.

Lemma ssn_step_not_alnum ssn i c total :
  ssn !! i = Some c -> is_alnum c = false ->
  ssn_step ssn i total = Raise (not_allowed c).
Proof.
  intros Hi Hc. unfold ssn_step, getitem. rewrite Hi. cbn [mbind result_bind].
  destruct (chars_not_alnum c Hc) as [Hodd Heven].
  destruct (_ =? _)%nat; [by rewrite Hodd | by rewrite Heven].
Qed.

Lemma ssn_step_out ssn i total :
  ssn !! i = None -> ssn_step ssn i total = Raise IndexError.
Proof. intros Hi. unfold ssn_step, getitem. by rewrite Hi. Qed.

Lemma ssn_loop pre : forall n l total,
  for_each (seq (length pre) n) (ssn_step (pre ++ l)) total =
  match find (fun c => negb (is_alnum c)) (take n l) with
  | Some c => Raise (not_allowed c)
  | None =>
      if (n <=? length l)%nat
      then Ok (total + foldr Z.add 0
                 (imap (fun k => spec_weight (length pre + k)) (take n l)))
      else Raise IndexError
  end.
Proof.
  intros n. revert pre. induction n as [|n IH]; intros pre l total.
  - cbn. rewrite take_0. cbn. f_equal. lia.
  - cbn [seq for_each]. destruct l as [|c l].
    + rewrite ssn_step_out; [done|]. apply lookup_ge_None. rewrite app_nil_r. lia.
    + assert (Hc : (pre ++ c :: l) !! length pre = Some c) by apply list_lookup_middle, eq_refl.
      cbn [take find]. destruct (is_alnum c) eqn:Ha; cbn [negb].
      * rewrite (ssn_step_alnum _ _ c) by done. cbn [mbind result_bind].
        specialize (IH (pre ++ [c]) l (total + spec_weight (length pre) c)).
        rewrite length_app, Nat.add_1_r, <- app_assoc in IH. cbn [app] in IH.
        rewrite IH. destruct (find _ _); [done|].
        cbn [length]. change (S n <=? S (length l))%nat with (n <=? length l)%nat.
        destruct (n <=? length l)%nat; [|done].
        f_equal. cbn [imap foldr]. rewrite Nat.add_0_r.
        rewrite <- Z.add_assoc. do 3 f_equal. apply imap_ext.
        intros k x _. cbn. f_equal. lia.
      * by rewrite (ssn_step_not_alnum _ _ c).
Qed.

Lemma check_digits_lookup m :
  0 <= m < 26 -> getitem ssn_check_digits (Z.to_nat m) = Ok (chr (65 + m)).
Proof.
  intros Hm. unfold getitem, ssn_check_digits.
  rewrite list_lookup_fmap, lookup_seq_lt by lia. cbn. do 2 f_equal. lia.
Qed.

Section CheckDigit.
Context `{py : Interpreter}.

(** The whole of [ssn_check_digit], by cases on the upper-cased text. *)
Lemma ssn_check_digit_cases value :
  ssn_check_digit value =
  match first_offending (upper value) with
  | Some c => Raise (not_allowed c)
  | None =>
      if (15 <=? length (upper value))%nat
      then Ok (chr (65 + weighted_sum (upper value) mod 26))
      else Raise IndexError
  end.
Proof.
  unfold ssn_check_digit, first_offending, weighted_sum.
  change (range 0 15 1) with (seq 0 15).
  pose proof (ssn_loop [] 15 (upper value) 0) as Hloop.
  cbn [app length] in Hloop. rewrite Hloop. clear Hloop.
  destruct (find _ _); [done|].
  destruct (15 <=? _)%nat; [|done]. cbn [mbind result_bind Nat.add].
  rewrite Z.add_0_l. apply check_digits_lookup. by apply Z.mod_pos_bound.
Qed.

Lemma upper_char_alnum c : is_alnum c = true -> upper_char c = [c].
Proof.
  intros Hc. unfold upper_char.
  replace (is_ascii c) with true by (symmetry; char_lia).
  replace (is_lower c) with false; [done|].
  symmetry. unfold is_lower, in_range. apply andb_false_iff.
  destruct (ch "a" <=? c)%N eqn:E; [right|by left]. char_lia.
Qed.

Lemma upper_alnum s : forallb is_alnum s = true -> upper s = s.
Proof.
  induction s as [|c s IH]; [done|]. cbn. intros [Hc Hs]%andb_true_iff.
  rewrite upper_char_alnum by done. cbn. f_equal. by apply IH.
Qed.

End CheckDigit.

Lemma find_none_forallb (p : N -> bool) l :
  find (fun c => negb (p c)) l = None <-> forallb p l = true.
Proof.
  induction l as [|c l IH]; cbn; [done|].
  destruct (p c); cbn; [apply IH | split; discriminate].
Qed.

Lemma weighted_sum_take ssn : weighted_sum (take 15 ssn) = weighted_sum ssn.
Proof. unfold weighted_sum. by rewrite take_take, Nat.min_id. Qed.

Section FiscalCodeChecksum.
Context `{py : Interpreter}.

Lemma upper_app s t : upper (s ++ t) = upper s ++ upper t.
Proof. apply flat_map_app. Qed.

(** Upper-casing leaves a prefix over [[0-9A-Z]] where it is. *)
Lemma upper_prefix_alnum n s :
  (n <= length s)%nat -> forallb is_alnum (take n s) = true ->
  take n (upper s) = take n s /\ (n <= length (upper s))%nat.
Proof.
  intros Hn Hs. rewrite <- (take_drop n s) at 1 3.
  rewrite upper_app, (upper_alnum _ Hs).
  assert (Hl : length (take n s) = n) by (rewrite length_take; lia).
  split.
  - rewrite take_app_le by lia. rewrite take_ge by lia. done.
  - rewrite length_app. lia.
Qed.

Lemma ssn_check_digit_alnum15 value :
  (15 <= length value)%nat -> forallb is_alnum (take 15 value) = true ->
  ssn_check_digit value = Ok (chr (65 + weighted_sum value mod 26)).
Proof.
  intros Hlen Hal. destruct (upper_prefix_alnum 15 value Hlen Hal) as [Htake Hup].
  rewrite ssn_check_digit_cases. unfold first_offending. rewrite Htake.
  apply find_none_forallb in Hal. rewrite Hal.
  apply Nat.leb_le in Hup. rewrite Hup.
  by rewrite <- (weighted_sum_take (upper value)), Htake, weighted_sum_take.
Qed.

(** C1. For every string whose upper-cased form has 15 characters or more,
    the first 15 of them in [[0-9A-Z]], [ssn_check_digit] returns the letter
    [chr(65 + (sum mod 26))], where [sum] adds, over the first 15 characters,
    the weight the specification's odd-position table gives a character at an
    even 0-based index and the weight its even-position table gives one at an
    odd index. *)
Theorem ssn_check_digit_weighted_sum value :
  (15 <= length (upper value))%nat ->
  forallb is_alnum (take 15 (upper value)) = true ->
  ssn_check_digit value = Ok (chr (65 + weighted_sum (upper value) mod 26)).
Proof.
  intros Hlen Hal. rewrite ssn_check_digit_cases. unfold first_offending.
  apply find_none_forallb in Hal. rewrite Hal.
  apply Nat.leb_le in Hlen. by rewrite Hlen.
Qed.

(** C7. On every 15-character string over [[0-9A-Z]], [ssn_check_digit]
    returns, and what it returns is one letter of ['A'..'Z']; and when one of
    the first 15 characters of the upper-cased text is outside [[0-9A-Z]], it
    raises the [ValueError] whose message names the first such character.
    (Determinism is that of a function of the text.) *)
Theorem ssn_check_digit_total_or_names_offender value :
  (length value = 15%nat -> forallb is_alnum value = true ->
   exists c, ssn_check_digit value = Ok [c] /\ is_upper c = true)
  /\ (forall c, first_offending (upper value) = Some c ->
        ssn_check_digit value = Raise (not_allowed c)
        /\ In c (take 15 (upper value)) /\ is_alnum c = false)
  /\ (forall c, In c (take 15 (upper value)) -> is_alnum c = false ->
        exists c', first_offending (upper value) = Some c').
Proof.
  split; [|split].
  - intros Hlen Hal.
    rewrite ssn_check_digit_alnum15; [|lia|by rewrite take_ge by lia].
    pose proof (Z.mod_pos_bound (weighted_sum value) 26 eq_refl) as Hm.
    exists (Z.to_N (65 + weighted_sum value mod 26)). split; [done|].
    char_lia.
  - intros c Hc. rewrite ssn_check_digit_cases, Hc. split; [done|].
    apply find_some in Hc as [Hin Hneg]. split; [done|].
    by apply negb_true_iff.
  - intros c Hin Hc. unfold first_offending.
    destruct (find _ _) as [c'|] eqn:Hf; [by exists c'|].
    apply find_none_forallb in Hf. rewrite forallb_forall in Hf.
    apply Hf in Hin. congruence.
Qed.

(** C4. For every 16-character code whose first 15 characters are in
    [[0-9A-Z]], [ssn_validation] returns the code itself exactly when its 16th
    character is the letter [ssn_check_digit] returns, and raises "Check digit
    does not match." exactly when it is not; so a code that validates stops
    validating when its last character is replaced by any other one. *)
Theorem ssn_validation_iff_check_digit code c15 :
  length code = 16%nat -> code !! 15%nat = Some c15 ->
  forallb is_alnum (take 15 code) = true ->
  (ssn_validation code = Ok code <-> ssn_check_digit code = Ok [c15])
  /\ (ssn_validation code = Raise check_digit_mismatch
      <-> ssn_check_digit code <> Ok [c15])
  /\ (forall c', ssn_validation code = Ok code -> c' <> c15 ->
        ssn_validation (take 15 code ++ [c']) = Raise check_digit_mismatch).
Proof.
  intros Hlen H15 Hal.
  assert (Hval : forall c v, length v = 16%nat -> v !! 15%nat = Some c ->
            take 15 v = take 15 code ->
            ssn_check_digit v = Ok (chr (65 + weighted_sum code mod 26))
            /\ ssn_validation v =
               if bool_decide ([c] <> chr (65 + weighted_sum code mod 26))
               then Raise check_digit_mismatch else Ok v).
  { intros c v Hv Hc Ht.
    assert (Hcd : ssn_check_digit v = Ok (chr (65 + weighted_sum code mod 26))).
    { rewrite ssn_check_digit_alnum15; [|lia|by rewrite Ht].
      by rewrite <- (weighted_sum_take v), Ht, weighted_sum_take. }
    split; [done|]. unfold ssn_validation, getitem. rewrite Hcd, Hc. done. }
  destruct (Hval c15 code Hlen H15 eq_refl) as [Hcd Hv].
  set (d := chr (65 + weighted_sum code mod 26)) in *.
  destruct (decide ([c15] = d)) as [E|E].
  - rewrite bool_decide_false in Hv by (intros Hn; apply Hn, E).
    split; [|split].
    + split; intros _; [by rewrite Hcd, E | done].
    + split; [rewrite Hv; discriminate|].
      intros Hn. exfalso. apply Hn. by rewrite Hcd, E.
    + intros c' _ Hc'.
      assert (Hlt : length (take 15 code) = 15%nat) by (rewrite length_take; lia).
      destruct (Hval c' (take 15 code ++ [c'])) as [_ ->].
      * rewrite length_app. cbn. lia.
      * rewrite lookup_app_r by lia. by rewrite Hlt.
      * rewrite take_app_le by lia. by rewrite take_take.
      * rewrite bool_decide_true; [done|].
        intros Heq. apply Hc'. rewrite <- E in Heq. by inversion Heq.
  - rewrite bool_decide_true in Hv by done.
    split; [|split].
    + split; [rewrite Hv; discriminate|].
      intros Heq. rewrite Hcd in Heq. inversion Heq. congruence.
    + split; [|done]. intros _. rewrite Hcd. intros Heq. inversion Heq. congruence.
    + intros c' Hok. rewrite Hv in Hok. discriminate.
Qed.

End FiscalCodeChecksum.

(** ** The pattern, read one character at a time *)

Lemma rmatch_fold_cat rs : forall r st,
  rmatch (fold_left Cat rs r) st = run rs (rmatch r st).
Proof.
  induction rs as [|r' rs IH]; intros r st; [done|].
  cbn [fold_left]. by rewrite IH.
Qed.

Lemma run_nil rs : run rs [] = [].
Proof. induction rs as [|r rs IH]; [done|]. apply IH. Qed.

Lemma run_app rs : forall X Y, run rs (X ++ Y) = run rs X ++ run rs Y.
Proof.
  induction rs as [|r rs IH]; intros X Y; [done|].
  unfold run. cbn [fold_left]. rewrite flat_map_app. apply IH.
Qed.

Lemma run_cons r rs X : run (r :: rs) X = run rs (flat_map (rmatch r) X).
Proof. done. Qed.

Lemma flat_map_single {A B} (f : A -> list B) x : flat_map f [x] = f x.
Proof. cbn. apply app_nil_r. Qed.

Lemma flat_map_iter (F : list (nat * str) -> list (nat * str)) k :
  (forall X Y, F (X ++ Y) = F X ++ F Y) -> F [] = [] ->
  forall X, flat_map (fun st => Nat.iter k F [st]) X = Nat.iter k F X.
Proof.
  intros Happ Hnil. induction k as [|k IH]; intros X.
  - cbn. induction X as [|x X IHX]; [done|]. cbn. by rewrite IHX.
  - induction X as [|x X IHX].
    + rewrite Nat.iter_succ, <- (IH []). cbn. apply eq_sym, Hnil.
    + cbn [flat_map]. rewrite IHX, !Nat.iter_succ, <- (IH (x :: X)), <- (IH X).
      cbn [flat_map]. by rewrite Happ.
Qed.

Lemma accepts_class_cons cls rs n c t :
  accepts (Class cls :: rs) n (c :: t) = in_class cls c && accepts rs (S n) t.
Proof.
  unfold accepts. rewrite run_cons, flat_map_single. cbn [rmatch fst snd].
  destruct (in_class cls c); [done|]. by rewrite run_nil.
Qed.

Lemma accepts_class_nil cls rs n : accepts (Class cls :: rs) n [] = false.
Proof. unfold accepts. rewrite run_cons. cbn. by rewrite run_nil. Qed.

Lemma accepts_alt_cons a b rs n c t :
  accepts (Alt (Class a) (Class b) :: rs) n (c :: t)
  = (in_class a c || in_class b c) && accepts rs (S n) t.
Proof.
  unfold accepts. rewrite run_cons, flat_map_single. cbn [rmatch fst snd].
  destruct (in_class a c), (in_class b c); cbn [app orb andb];
    rewrite ?run_nil; try done.
  change [(S n, t); (S n, t)] with ([(S n, t)] ++ [(S n, t)]).
  rewrite run_app. by destruct (run rs [(S n, t)]).
Qed.

Lemma accepts_alt_nil a b rs n :
  accepts (Alt (Class a) (Class b) :: rs) n [] = false.
Proof. unfold accepts. rewrite run_cons. cbn. by rewrite run_nil. Qed.

Lemma accepts_group r rs n s : accepts (Group r :: rs) n s = accepts (r :: rs) n s.
Proof. done. Qed.

Lemma accepts_rep_0 r rs n s : accepts (Rep r 0 :: rs) n s = accepts rs n s.
Proof. done. Qed.

Lemma accepts_rep_S r k rs n s :
  accepts (Rep r (S k) :: rs) n s = accepts (r :: Rep r k :: rs) n s.
Proof.
  unfold accepts. rewrite !run_cons, flat_map_single.
  cbn [rmatch]. rewrite Nat.iter_succ_r.
  change (flat_map (rmatch (Rep r k)))
    with (flat_map (fun st => Nat.iter k (flat_map (rmatch r)) [st])).
  rewrite flat_map_iter; [done| apply flat_map_app | done].
Qed.

Lemma accepts_eol n s : accepts [Eol] n s = at_eol s.
Proof. unfold accepts. cbn. by destruct (at_eol s). Qed.

Lemma re_match_PATTERN_accepts s :
  re_match PATTERN s =
  accepts [ Rep AZ 6; Rep D09 2;
            Group (Class [lit "A"; lit "B"; lit "C"; lit "D"; lit "E"; lit "H";
                          lit "L"; lit "M"; lit "P"; lit "R"; lit "S"; lit "T"]);
            Rep D09 2; AZ; D09; Group (Alt AZ D09); D09; AZ; Eol ] 0 s.
Proof.
  unfold re_match, PATTERN, accepts. cbn [cat_all]. by rewrite rmatch_fold_cat.
Qed.

Lemma in_range_same x c : in_range x x c = (c =? x)%N.
Proof.
  unfold in_range. destruct (N.eqb_spec c x) as [->|Hne].
  - by rewrite N.leb_refl.
  - apply andb_false_iff. destruct (N.leb_spec x c); [right|by left].
    apply N.leb_gt. lia.
Qed.

Lemma in_class_AZ c : in_class [(ch "A", ch "Z")] c = is_upper c.
Proof. unfold in_class. cbn [existsb fst snd]. apply orb_false_r. Qed.

Lemma in_class_09 c : in_class [(ch "0", ch "9")] c = is_digit c.
Proof. unfold in_class. cbn [existsb fst snd]. apply orb_false_r. Qed.

Lemma in_class_month c :
  in_class [lit "A"; lit "B"; lit "C"; lit "D"; lit "E"; lit "H";
            lit "L"; lit "M"; lit "P"; lit "R"; lit "S"; lit "T"] c = is_month c.
Proof.
  unfold in_class, is_month, month_letters, lit.
  cbn [existsb fst snd text map list_ascii_of_string].
  by rewrite !in_range_same.
Qed.

Ltac accepts_norm :=
  unfold AZ, D09;
  repeat first
    [ rewrite accepts_rep_S | rewrite accepts_rep_0 | rewrite accepts_group
    | rewrite accepts_alt_cons | rewrite accepts_alt_nil
    | rewrite accepts_class_cons | rewrite accepts_class_nil
    | rewrite accepts_eol ];
  rewrite ?in_class_AZ, ?in_class_09, ?in_class_month.

(** What [re.match(PATTERN, s)] decides: the first 16 characters have the
    shape, and what follows is nothing or one final newline. *)
Lemma re_match_PATTERN_shape s :
  re_match PATTERN s = has_shape (take 16 s) && at_eol (drop 16 s).
Proof.
  rewrite re_match_PATTERN_accepts.
  do 16 (destruct s as [|? s];
         [accepts_norm; rewrite ?andb_false_r; reflexivity|]).
  accepts_norm. unfold has_shape. cbn [take drop length Nat.eqb zip zip_with fiscal_shape replicate app forallb fst snd].
  rewrite take_0, drop_0. cbn [length Nat.eqb andb].
  unfold is_alnum. rewrite (orb_comm (is_upper _)), andb_true_r.
  by rewrite <- !andb_assoc.
Qed.

(** ** [int] on digits *)

Lemma lstrip_digits s : forallb is_digit s = true -> lstrip s = s.
Proof.
  destruct s as [|c s]; [done|]. cbn. intros [Hc _]%andb_true_iff.
  replace (is_space c) with false; [done|].
  symmetry. unfold is_space. apply orb_false_iff. split.
  - unfold in_range. apply andb_false_iff. right. char_lia.
  - char_lia.
Qed.

Lemma take_while_digits s :
  forallb is_digit s = true -> take_while is_digit_or_underscore s = s.
Proof.
  induction s as [|c s IH]; [done|]. cbn [forallb take_while].
  intros [Hc Hs]%andb_true_iff.
  unfold is_digit_or_underscore at 1. rewrite Hc. cbn [orb]. by rewrite IH.
Qed.

Lemma drop_while_digits s :
  forallb is_digit s = true -> drop_while is_digit_or_underscore s = [].
Proof.
  induction s as [|c s IH]; [done|]. cbn [forallb drop_while].
  intros [Hc Hs]%andb_true_iff.
  unfold is_digit_or_underscore at 1. rewrite Hc. cbn [orb]. by apply IH.
Qed.

Lemma filter_digits s : forallb is_digit s = true -> List.filter is_digit s = s.
Proof.
  induction s as [|c s IH]; [done|]. cbn. intros [Hc Hs]%andb_true_iff.
  rewrite Hc. by rewrite IH.
Qed.

Lemma int_sign_digits s : forallb is_digit s = true -> int_sign s = (false, s).
Proof.
  destruct s as [|c s]; [done|]. cbn [forallb]. intros [Hc _]%andb_true_iff.
  unfold int_sign.
  replace (c =? ch "-")%N with false by (symmetry; char_lia).
  by replace (c =? ch "+")%N with false by (symmetry; char_lia).
Qed.

Lemma int_digits_digits ds : forall b acc,
  forallb is_digit ds = true -> ds <> [] \/ b = true ->
  int_digits b acc ds
  = Some (fold_left (fun acc c => (10 * acc + (c - ch "0"))%N) ds acc).
Proof.
  induction ds as [|c ds IH]; intros b acc Hds Hb.
  - destruct Hb as [ Hb | Hb ]; [done|by subst].
  - cbn in Hds. apply andb_true_iff in Hds as [Hc Hds].
    cbn [int_digits fold_left]. rewrite Hc. apply IH; [done|by right].
Qed.

Section IntOfDigits.
Context `{py : Interpreter}.

Lemma int_ascii_digits s : forallb is_digit s = true -> map int_ascii_char s = s.
Proof.
  induction s as [|c s IH]; [done|]. cbn. intros [Hc Hs]%andb_true_iff.
  rewrite IH by done. f_equal. unfold int_ascii_char.
  replace (is_ascii c) with true; [done|]. symmetry. char_lia.
Qed.

(** The limit is 640 digits or more, and what is within it stays so when
    there are fewer digits. *)
Lemma exceeds_limit_le a b :
  (a <= b)%nat -> exceeds_limit b = false -> exceeds_limit a = false.
Proof.
  unfold exceeds_limit. destruct int_max_str_digits as [limit|]; [|done].
  intros Hab Hb. apply N.ltb_ge. apply N.ltb_ge in Hb. lia.
Qed.

Lemma exceeds_limit_640 k : (k <= 640)%nat -> exceeds_limit k = false.
Proof.
  unfold exceeds_limit, int_max_str_digits.
  destruct digits_above_640 as [extra|]; [|done]. cbn [fmap option_fmap option_map].
  intros Hk. apply N.ltb_ge. lia.
Qed.

Lemma exceeds_limit_max a b :
  (a <= 640)%nat -> exceeds_limit b = false -> exceeds_limit (Nat.max a b) = false.
Proof.
  intros Ha Hb. destruct (Nat.max_spec a b) as [[_ ->] | [_ ->]];
    [done|by apply exceeds_limit_640].
Qed.

Lemma int_of_str_digits ds :
  ds <> [] -> forallb is_digit ds = true -> exceeds_limit (length ds) = false ->
  int_of_str ds = Ok (Z.of_N (digits_value ds)).
Proof.
  intros Hne Hds Hlim. unfold int_of_str.
  rewrite int_ascii_digits, lstrip_digits, int_sign_digits by done.
  cbn [fst snd]. rewrite take_while_digits, drop_while_digits by done.
  rewrite (int_digits_digits ds false 0%N Hds) by (by left).
  by rewrite filter_digits, Hlim.
Qed.

Lemma int_of_str_too_long ds :
  forallb is_digit ds = true -> exceeds_limit (length ds) = true ->
  int_of_str ds = Raise ExceedsDigitLimit.
Proof.
  intros Hds Hlim.
  assert (Hne : ds <> []).
  { intros ->. by rewrite exceeds_limit_640 in Hlim by (cbn; lia). }
  unfold int_of_str.
  rewrite int_ascii_digits, lstrip_digits, int_sign_digits by done.
  cbn [fst snd]. rewrite take_while_digits by done.
  rewrite (int_digits_digits ds false 0%N Hds) by (by left).
  by rewrite filter_digits, Hlim.
Qed.

Lemma int_of_str_digit c :
  is_digit c = true -> int_of_str [c] = Ok (digit_value c).
Proof.
  intros Hc. rewrite int_of_str_digits;
    [|done|by cbn; rewrite Hc|apply exceeds_limit_640; cbn; lia].
  unfold digits_value, digit_value. cbn [fold_left]. f_equal; f_equal; lia.
Qed.

Lemma int_of_str_two_digits a b :
  is_digit a = true -> is_digit b = true ->
  int_of_str [a; b] = Ok (10 * digit_value a + digit_value b).
Proof.
  intros Ha Hb. rewrite int_of_str_digits;
    [|done|by cbn; rewrite Ha, Hb|apply exceeds_limit_640; cbn; lia].
  unfold digits_value, digit_value. cbn [fold_left]. f_equal; lia.
Qed.

End IntOfDigits.

(** ** Decoding a valid fiscal code *)

Lemma is_month_below c : is_month c = true -> (c < N.of_nat 91)%N.
Proof.
  unfold is_month, month_letters. cbn [text map list_ascii_of_string existsb].
  intros H. repeat (apply orb_true_iff in H as [H|H]; [char_lia|]). done.
Qed.

Lemma months_agree_below : forallb months_agree (map N.of_nat (seq 0 91)) = true.
Proof. vm_compute. reflexivity. Qed.

Lemma month_index c :
  is_month c = true ->
  (fun i => Z.of_nat i + 1) <$> list_index [c] MONTHSCODE = Some (month_number c).
Proof.
  intros Hc.
  pose proof (forall_below _ _ months_agree_below c (is_month_below c Hc)) as H.
  unfold months_agree in H. rewrite Hc in H. by apply bool_decide_eq_true in H.
Qed.

(** The fields the decoders read, in a code that passed [ssn_isvalid]. *)
Lemma valid_code_fields s :
  ssn_isvalid (PyStr s) = true ->
  exists pre y1 y2 m d1 d2 post,
    s = pre ++ [y1; y2; m; d1; d2] ++ post /\ length pre = 6%nat
    /\ is_digit y1 = true /\ is_digit y2 = true /\ is_month m = true
    /\ is_digit d1 = true /\ is_digit d2 = true.
Proof.
  cbn [ssn_isvalid]. rewrite re_match_PATTERN_shape.
  intros [Hs _]%andb_true_iff. unfold has_shape in Hs.
  apply andb_true_iff in Hs as [Hlen Hs].
  do 11 (destruct s as [|? s]; [discriminate Hlen|]).
  cbn [take zip zip_with fiscal_shape replicate app forallb fst snd] in Hs.
  repeat match type of Hs with
    | _ && _ = true => let H := fresh "Hc" in apply andb_true_iff in Hs as [H Hs]
    end.
  eexists [_; _; _; _; _; _], _, _, _, _, _, _.
  split; [reflexivity|]. by repeat split.
Qed.

Section Decoders.
Context `{py : Interpreter}.

Lemma assert_valid_ok s : ssn_isvalid (PyStr s) = true -> assert_valid (PyStr s) = Ok s.
Proof. intros H. unfold assert_valid. by rewrite H. Qed.

Lemma assert_valid_raises code :
  ssn_isvalid code = false -> assert_valid code = Raise AssertionError.
Proof. intros H. unfold assert_valid. by rewrite H. Qed.

(** What [ssn_get_birthday] returns on a code that passed [ssn_isvalid]. *)
Lemma ssn_get_birthday_valid s :
  ssn_isvalid (PyStr s) = true ->
  ssn_get_birthday (PyStr s)
  = Ok (fmt_02d (and_or int_truthy (two_digits s 9 <? 32)
                   (two_digits s 9) (two_digits s 9 - 40))
        ++ text "/" ++ fmt_02d (month_number (nth 8 s 0%N)) ++ text "/"
        ++ fmt_02d (two_digits s 6)).
Proof.
  intros Hv. unfold ssn_get_birthday. rewrite (assert_valid_ok s Hv).
  destruct (valid_code_fields s Hv)
    as (pre & y1 & y2 & m & d1 & d2 & post & -> & Hpre & Hy1 & Hy2 & Hm & Hd1 & Hd2).
  do 7 (destruct pre as [|? pre]; try discriminate Hpre). clear Hpre.
  cbn [mbind result_bind app slice drop take Nat.sub getitem lookup list_lookup].
  unfold two_digits. cbn [nth].
  rewrite (int_of_str_two_digits d1 d2 Hd1 Hd2).
  rewrite (int_of_str_two_digits y1 y2 Hy1 Hy2).
  pose proof (month_index m Hm) as Hmi.
  destruct (list_index [m] MONTHSCODE) as [i|]; [|discriminate Hmi].
  cbn in Hmi. injection Hmi as <-. reflexivity.
Qed.

(** What [ssn_get_sex] returns on a code that passed [ssn_isvalid]. *)
Lemma ssn_get_sex_valid s :
  ssn_isvalid (PyStr s) = true ->
  ssn_get_sex (PyStr s) = Ok (if two_digits s 9 <? 32 then text "M" else text "F").
Proof.
  intros Hv. unfold ssn_get_sex. rewrite (assert_valid_ok s Hv).
  destruct (valid_code_fields s Hv)
    as (pre & y1 & y2 & m & d1 & d2 & post & -> & Hpre & Hy1 & Hy2 & Hm & Hd1 & Hd2).
  do 7 (destruct pre as [|? pre]; try discriminate Hpre). clear Hpre.
  cbn [mbind result_bind app slice drop take Nat.sub].
  unfold two_digits. cbn [nth].
  rewrite (int_of_str_two_digits d1 d2 Hd1 Hd2).
  cbn [mbind result_bind]. by destruct (_ <? 32).
Qed.

(** X3. On a code [ssn_isvalid] accepts whose day field is not [00],
    [ssn_get_birthday] returns day, month and year as two digits each, the
    day being the field itself up to 31 and the field minus 40 above: the
    day the code computes and the day of the specification differ only when
    the two digits are [00]. *)
Lemma ssn_get_birthday_spec_nonzero s :
  ssn_isvalid (PyStr s) = true -> two_digits s 9 <> 0 ->
  ssn_get_birthday (PyStr s) = Ok (spec_birthday s).
Proof.
  intros Hv Hnz. rewrite (ssn_get_birthday_valid s Hv). unfold spec_birthday.
  do 2 f_equal. unfold and_or, int_truthy.
  destruct (Z.ltb_spec (two_digits s 9) 32), (Z.ltb_spec 31 (two_digits s 9));
    try lia; [|done].
  destruct (Z.eqb_spec (two_digits s 9) 0); [contradiction|done].
Qed.

(** C8. On every code that passes [ssn_isvalid], [ssn_get_sex] returns ["M"]
    when the two digits at the 1-indexed positions 10-11 are below 32 and
    ["F"] otherwise; it returns ["M"] on ["RCCMNL83S18D969H"] and ["F"] on
    ["CNTCHR83T41D969D"]. *)
Theorem ssn_get_sex_from_day_field :
  (forall code, ssn_isvalid code = true ->
     exists s, code = PyStr s
       /\ ssn_get_sex code
          = Ok (if two_digits s 9 <? 32 then text "M" else text "F"))
  /\ ssn_get_sex (PyStr (text "RCCMNL83S18D969H")) = Ok (text "M")
  /\ ssn_get_sex (PyStr (text "CNTCHR83T41D969D")) = Ok (text "F").
Proof.
  split; [|split; by rewrite ssn_get_sex_valid].
  intros [s| |] Hv; try discriminate Hv.
  exists s. split; [done|]. by apply ssn_get_sex_valid.
Qed.

(** C2, at the input where the code leaves the claim: the day field [00] is
    below 32, yet 40 is taken off, because [day < 32 and day or day - 40]
    tests the truth of [day]; the specification's day is [00]. *)
Theorem ssn_get_birthday_day_00 :
  ssn_isvalid (PyStr (text "RCCMNL83S00D969H")) = true
  /\ ssn_get_birthday (PyStr (text "RCCMNL83S00D969H")) = Ok (text "-40/11/83")
  /\ spec_birthday (text "RCCMNL83S00D969H") = text "00/11/83"
  /\ ssn_get_birthday (PyStr (text "RCCMNL83S18D969H")) = Ok (text "18/11/83").
Proof.
  split; [reflexivity|]. split; [by rewrite ssn_get_birthday_valid|].
  split; [reflexivity|]. by rewrite ssn_get_birthday_valid.
Qed.

End Decoders.

(** X1. What [ssn_isvalid] accepts: a [str] of the 16-character shape,
    possibly followed by one newline, and nothing else. *)
Lemma ssn_isvalid_iff code :
  ssn_isvalid code = true <->
  exists s, code = PyStr s
    /\ (has_shape s = true \/ exists s0, s = s0 ++ [LF] /\ has_shape s0 = true).
Proof.
  split.
  - destruct code as [s| |]; try discriminate. cbn [ssn_isvalid].
    rewrite re_match_PATTERN_shape. intros [Hs He]%andb_true_iff.
    exists s. split; [done|].
    destruct (drop 16 s) as [|c [|? ?]] eqn:Hd; try discriminate He.
    + left. rewrite <- (take_drop 16 s), Hd, app_nil_r. done.
    + right. exists (take 16 s). split; [|done].
      apply N.eqb_eq in He. subst c. by rewrite <- Hd, take_drop.
  - intros (s & -> & [Hs | (s0 & -> & Hs)]); cbn [ssn_isvalid];
      rewrite re_match_PATTERN_shape.
    + assert (Hl : length s = 16%nat)
        by (unfold has_shape in Hs; apply andb_true_iff in Hs as [Hl _];
            by apply Nat.eqb_eq).
      rewrite take_ge, drop_ge by lia. by rewrite Hs.
    + assert (Hl : length s0 = 16%nat)
        by (unfold has_shape in Hs; apply andb_true_iff in Hs as [Hl _];
            by apply Nat.eqb_eq).
      rewrite take_app_length', drop_app_length' by done. rewrite Hs. done.
Qed.

(** C3, at the input where the code leaves the claim: a 17-character string,
    a well-formed code followed by a newline, passes [ssn_isvalid], because
    [$] also matches just before a final newline. What is not a [str], and a
    code one character short, do not pass. *)
Theorem ssn_isvalid_trailing_newline :
  length (text "RCCMNL83S18D969H" ++ [LF]) = 17%nat
  /\ ssn_isvalid (PyStr (text "RCCMNL83S18D969H" ++ [LF])) = true
  /\ has_shape (text "RCCMNL83S18D969H" ++ [LF]) = false
  /\ ssn_isvalid (PyStr (text "RCCMNL83S18D969H")) = true
  /\ ssn_isvalid (PyInt 42) = false /\ ssn_isvalid PyNone = false.
Proof. repeat split; reflexivity. Qed.

(** ** Decimal representations: [str(n)] and back *)

Lemma of_lu_revapp_value d : forall d',
  Unsigned.of_lu (Decimal.revapp d d') = value_from (Unsigned.of_lu d') (uint_digits d).
Proof.
  unfold value_from.
  induction d as [|d IH|d IH|d IH|d IH|d IH|d IH|d IH|d IH|d IH|d IH]; intros d';
    cbn [Decimal.revapp uint_digits fold_left]; [done|..];
    rewrite IH; cbn [Unsigned.of_lu]; f_equal; lia.
Qed.

Lemma value_uint_digits n : value_from 0 (uint_digits (N.to_uint n)) = n.
Proof.
  rewrite <- (Unsigned.of_to n) at 2. unfold N.of_uint.
  rewrite Unsigned.of_uint_alt. unfold Decimal.rev.
  by rewrite of_lu_revapp_value.
Qed.

Lemma uint_digits_small d : Forall (fun x => (x < 10)%N) (uint_digits d).
Proof. induction d; cbn; constructor; (lia || done). Qed.

Lemma uint_digits_nonempty n : uint_digits (N.to_uint n) <> [].
Proof.
  destruct n as [|p]; [done|]. cbn [N.to_uint].
  pose proof (Unsigned.to_uint_nonnil p) as Hp.
  by destruct (Pos.to_uint p).
Qed.

Lemma digits_value_map l : forall acc,
  fold_left (fun acc c => (10 * acc + (c - ch "0"))%N) (map digit_char l) acc
  = value_from acc l.
Proof.
  unfold value_from. induction l as [|x l IH]; intros acc; [done|].
  cbn [map fold_left]. rewrite IH. f_equal. unfold digit_char. lia.
Qed.

Lemma digits_value_str_of_N n : digits_value (str_of_N n) = n.
Proof.
  unfold digits_value, str_of_N. rewrite digits_value_map. apply value_uint_digits.
Qed.

Lemma is_digit_digit_char x : (x < 10)%N -> is_digit (digit_char x) = true.
Proof. intros Hx. unfold digit_char. char_lia. Qed.

Lemma str_of_N_digits n : forallb is_digit (str_of_N n) = true.
Proof.
  unfold str_of_N. apply forallb_forall. intros c [x [<- Hx]]%in_map_iff.
  apply is_digit_digit_char.
  pose proof (uint_digits_small (N.to_uint n)) as Hs.
  rewrite Forall_forall in Hs. apply Hs. by apply list_elem_of_In.
Qed.

Lemma str_of_N_nonempty n : str_of_N n <> [].
Proof.
  unfold str_of_N. intros H. apply map_eq_nil in H.
  by apply uint_digits_nonempty in H.
Qed.

Lemma digits_value_zeros k s :
  digits_value (replicate k (ch "0") ++ s) = digits_value s.
Proof.
  unfold digits_value. rewrite fold_left_app. f_equal.
  induction k as [|k IH]; [done|]. cbn [replicate fold_left]. apply IH.
Qed.

(** The length of a decimal representation against its size. *)

Lemma value_from_lt l : forall acc,
  Forall (fun x => (x < 10)%N) l ->
  (value_from acc l < (acc + 1) * 10 ^ N.of_nat (length l))%N.
Proof.
  unfold value_from. induction l as [|x l IH]; intros acc Hl.
  - cbn. lia.
  - apply Forall_cons in Hl as [Hx Hl]. cbn [fold_left length].
    specialize (IH (10 * acc + x)%N Hl).
    rewrite Nat2N.inj_succ, N.pow_succ_r'. nia.
Qed.

Lemma value_from_ge l : forall acc,
  (acc * 10 ^ N.of_nat (length l) <= value_from acc l)%N.
Proof.
  unfold value_from. induction l as [|x l IH]; intros acc.
  - cbn. lia.
  - cbn [fold_left length]. specialize (IH (10 * acc + x)%N).
    rewrite Nat2N.inj_succ, N.pow_succ_r'. nia.
Qed.

Lemma nzhead_no_leading_zero d :
  match Decimal.nzhead d with Decimal.D0 _ => False | _ => True end.
Proof. induction d; cbn; done. Qed.

(** [str(n)] has no leading zero, unless it is ["0"]. *)
Lemma uint_digits_canonical n :
  uint_digits (N.to_uint n) = [0%N]
  \/ exists x l, uint_digits (N.to_uint n) = x :: l /\ (1 <= x)%N.
Proof.
  pose proof (Unsigned.to_of (N.to_uint n)) as Hn.
  rewrite Unsigned.of_to in Hn. rewrite Hn. unfold Decimal.unorm.
  pose proof (nzhead_no_leading_zero (N.to_uint n)) as Hz.
  destruct (Decimal.nzhead (N.to_uint n)); cbn [uint_digits];
    [by left | done | right; eexists _, _; split; [done|lia] ..].
Qed.

Lemma length_str_of_N n k :
  (1 <= k)%nat ->
  ((n < 10 ^ N.of_nat k)%N -> (length (str_of_N n) <= k)%nat)
  /\ ((10 ^ N.of_nat k <= n)%N -> (k < length (str_of_N n))%nat).
Proof.
  intros Hk. unfold str_of_N. rewrite length_map.
  pose proof (value_uint_digits n) as Hv.
  split; intros Hn.
  - destruct (uint_digits_canonical n) as [-> | (x & l & Hl & Hx)]; [cbn; lia|].
    rewrite Hl in *. cbn [length]. unfold value_from in Hv. cbn [fold_left] in Hv.
    pose proof (value_from_ge l (10 * 0 + x)%N) as Hge. unfold value_from in Hge.
    rewrite Hv in Hge.
    destruct (Nat.le_gt_cases (S (length l)) k) as [|Hgt]; [done|exfalso].
    assert (10 ^ N.of_nat k <= 10 ^ N.of_nat (length l))%N
      by (apply N.pow_le_mono_r; lia).
    nia.
  - pose proof (value_from_lt _ 0%N (uint_digits_small (N.to_uint n))) as Hlt.
    rewrite Hv in Hlt.
    destruct (Nat.le_gt_cases (length (uint_digits (N.to_uint n))) k) as [Hle|]; [exfalso|done].
    assert (10 ^ N.of_nat (length (uint_digits (N.to_uint n))) <= 10 ^ N.of_nat k)%N
      by (apply N.pow_le_mono_r; lia).
    lia.
Qed.

(** ** VAT numbers *)

Lemma zfill_ge s w : (w <= length s)%nat -> zfill s w = s.
Proof.
  intros Hw. unfold zfill. replace (w - length s)%nat with 0%nat by lia.
  destruct s as [|c s]; [done|]. cbn [replicate app]. by destruct (_ || _).
Qed.

Lemma zfill_digits s w :
  forallb is_digit s = true -> zfill s w = replicate (w - length s) (ch "0") ++ s.
Proof.
  intros Hs. unfold zfill. destruct s as [|c s]; [by rewrite app_nil_r|].
  cbn in Hs. apply andb_true_iff in Hs as [Hc _].
  replace (c =? ch "+")%N with false by (symmetry; char_lia).
  replace (c =? ch "-")%N with false by (symmetry; char_lia). done.
Qed.

Lemma zfill_minus t w :
  zfill (ch "-" :: t) w = ch "-" :: replicate (w - S (length t)) (ch "0") ++ t.
Proof. reflexivity. Qed.

Lemma forallb_take (p : N -> bool) n : forall l,
  forallb p l = true -> forallb p (take n l) = true.
Proof.
  induction n as [|n IH]; intros [|x l]; cbn; try done.
  intros [Hx Hl]%andb_true_iff. rewrite Hx. by apply IH.
Qed.

Lemma forallb_replicate_zero k : forallb is_digit (replicate k (ch "0")) = true.
Proof. induction k as [|k IH]; [done|]. cbn [replicate forallb]. by rewrite IH. Qed.

Lemma zfill_digits_all s w :
  forallb is_digit s = true -> forallb is_digit (zfill s w) = true.
Proof.
  intros Hs. rewrite zfill_digits by done.
  by rewrite forallb_app, forallb_replicate_zero, Hs.
Qed.

Lemma length_zfill_digits s w :
  forallb is_digit s = true -> length (zfill s w) = Nat.max w (length s).
Proof.
  intros Hs. rewrite zfill_digits by done.
  rewrite length_app, length_replicate. lia.
Qed.

Lemma str_of_int_digit r :
  0 <= r < 10 -> str_of_int r = [digit_char (Z.to_N r)].
Proof.
  intros Hr.
  assert (r = 0 \/ r = 1 \/ r = 2 \/ r = 3 \/ r = 4 \/ r = 5 \/ r = 6 \/ r = 7
          \/ r = 8 \/ r = 9) as Hc by lia.
  repeat destruct Hc as [-> | Hc]; try subst r; reflexivity.
Qed.

Lemma str_of_int_nonneg n : 0 <= n -> str_of_int n = str_of_N (Z.to_N n).
Proof. intros Hn. unfold str_of_int. by destruct (Z.ltb_spec n 0); [lia|]. Qed.

Lemma str_of_int_neg n : n < 0 -> str_of_int n = ch "-" :: str_of_N (Z.abs_N n).
Proof. intros Hn. unfold str_of_int. by destruct (Z.ltb_spec n 0); [|lia]. Qed.

Lemma count_digits_nonneg n : 0 <= n -> count_digits n = length (str_of_int n).
Proof.
  intros Hn. rewrite str_of_int_nonneg by done. unfold count_digits.
  by rewrite Zabs2N.abs_N_nonneg.
Qed.

Section Vat.
Context `{py : Interpreter}.

Lemma py_str_within n :
  exceeds_limit (count_digits n) = false -> py_str n = Ok (str_of_int n).
Proof. intros H. unfold py_str. by rewrite H. Qed.

Lemma py_str_exceeds n :
  exceeds_limit (count_digits n) = true -> py_str n = Raise ExceedsDigitLimit.
Proof. intros H. unfold py_str. by rewrite H. Qed.

Lemma py_str_digit r : 0 <= r < 10 -> py_str r = Ok [digit_char (Z.to_N r)].
Proof.
  intros Hr.
  assert (Hc : count_digits r = 1%nat)
    by (rewrite count_digits_nonneg, str_of_int_digit by lia; done).
  rewrite py_str_within by (apply exceeds_limit_640; lia).
  by rewrite str_of_int_digit.
Qed.

(** The two loops of [vat_number_check_digit], on ten digits or more. *)
Lemma vat_number_check_digit_normalized t :
  forallb is_digit t = true -> (10 <= length t)%nat ->
  vat_number_check_digit (PyStr t) = Ok (spec_vat_digit t).
Proof.
  intros Hd Hl. unfold vat_number_check_digit.
  cbn [smart_text mbind result_bind]. rewrite (zfill_ge t 10 Hl).
  do 10 (destruct t as [|? t]; [cbn in Hl; lia|]). clear Hl.
  cbn [forallb] in Hd.
  repeat match type of Hd with
    | _ && _ = true => let H := fresh "Hc" in apply andb_true_iff in Hd as [H Hd]
    end.
  change (range 0 10 2) with [0; 2; 4; 6; 8]%nat.
  change (range 1 11 2) with [1; 3; 5; 7; 9]%nat.
  cbn [for_each getitem lookup list_lookup mbind result_bind].
  rewrite !int_of_str_digit by assumption.
  cbn [mbind result_bind]. rewrite ?int_of_str_digit by assumption.
  cbn [mbind result_bind smart_text].
  rewrite py_str_digit by (apply Z.mod_pos_bound; lia). f_equal.
  unfold spec_vat_digit, vat_sum, luhn_digit. cbn [map foldr nth].
  rewrite !(Z.mul_comm (digit_value _) 2).
  match goal with
  | |- [digit_char (Z.to_N ((10 - ?a mod 10) mod 10))]
       = [digit_char (Z.to_N ((10 - ?b mod 10) mod 10))] =>
      replace a with b by ring
  end.
  reflexivity.
Qed.

Lemma vat_number_check_digit_digits s :
  forallb is_digit s = true ->
  vat_number_check_digit (PyStr s) = Ok (spec_vat_digit (zfill s 10)).
Proof.
  intros Hs.
  assert (Hn : vat_number_check_digit (PyStr s)
               = vat_number_check_digit (PyStr (zfill s 10))).
  { unfold vat_number_check_digit. cbn [smart_text mbind result_bind].
    rewrite (zfill_ge (zfill s 10) 10); [done|].
    rewrite length_zfill_digits by done. lia. }
  rewrite Hn. apply vat_number_check_digit_normalized.
  - by apply zfill_digits_all.
  - rewrite length_zfill_digits by done. lia.
Qed.

(** A sign in front stops the first loop at once. *)
Lemma vat_number_check_digit_minus t :
  vat_number_check_digit (PyStr (ch "-" :: t)) = Raise (InvalidLiteral (text "-")).
Proof.
  unfold vat_number_check_digit. cbn [smart_text mbind result_bind].
  change (range 0 10 2) with [0; 2; 4; 6; 8]%nat.
  rewrite zfill_minus.
  cbn [for_each getitem lookup list_lookup mbind result_bind].
  replace (int_of_str [ch "-"]) with (@Raise Z (InvalidLiteral (text "-")));
    [done|].
  unfold int_of_str. cbn [map]. by replace (int_ascii_char (ch "-")) with (ch "-").
Qed.

Lemma vat_number_validation_by_int v n :
  py_int v = Ok n -> vat_number_validation v = vat_number_validation (PyInt n).
Proof. intros Hv. unfold vat_number_validation. by rewrite Hv. Qed.

(** More digits than the interpreter converts: [str] raises. *)
Lemma vat_number_validation_exceeds n :
  exceeds_limit (count_digits n) = true ->
  vat_number_validation (PyInt n) = Raise ExceedsDigitLimit.
Proof.
  intros Hlim. unfold vat_number_validation. cbn [py_int mbind result_bind].
  by rewrite py_str_exceeds.
Qed.

Lemma vat_number_validation_negative n :
  n < 0 -> exceeds_limit (count_digits n) = false ->
  vat_number_validation (PyInt n) = Raise (InvalidLiteral (text "-")).
Proof.
  intros Hn Hlim. unfold vat_number_validation. cbn [py_int mbind result_bind].
  rewrite py_str_within by done. cbn [mbind result_bind].
  rewrite (str_of_int_neg n Hn), zfill_minus.
  unfold slice. cbn [skipn firstn Nat.sub]. by rewrite vat_number_check_digit_minus.
Qed.

(** The normalized text of a non-negative number, and what the validator
    does with it. *)
Lemma vat_number_validation_nonneg n :
  0 <= n -> exceeds_limit (count_digits n) = false ->
  let normalized := zfill (str_of_int n) 11 in
  forallb is_digit normalized = true
  /\ length normalized = Nat.max 11 (length (str_of_int n))
  /\ digits_value normalized = Z.to_N n
  /\ exists c, normalized !! 10%nat = Some c
       /\ vat_number_check_digit (PyStr (slice normalized 0 10))
          = Ok (spec_vat_digit (take 10 normalized))
       /\ vat_number_validation (PyInt n)
          = if bool_decide ([c] <> spec_vat_digit (take 10 normalized))
            then Raise check_digit_mismatch else Ok normalized.
Proof.
  intros Hn Hlim normalized.
  assert (Hs : forallb is_digit (str_of_int n) = true)
    by (rewrite str_of_int_nonneg by done; apply str_of_N_digits).
  assert (Hd : forallb is_digit normalized = true) by by apply zfill_digits_all.
  assert (Hl : length normalized = Nat.max 11 (length (str_of_int n)))
    by by apply length_zfill_digits.
  split; [done|]. split; [done|]. split.
  { unfold normalized. rewrite zfill_digits by done.
    rewrite digits_value_zeros, str_of_int_nonneg by done.
    apply digits_value_str_of_N. }
  destruct (normalized !! 10%nat) as [c|] eqn:Hc;
    [|apply lookup_ge_None in Hc; lia].
  exists c. split; [done|].
  assert (Hcd : vat_number_check_digit (PyStr (slice normalized 0 10))
                = Ok (spec_vat_digit (take 10 normalized))).
  { unfold slice. cbn [skipn Nat.sub].
    apply vat_number_check_digit_normalized.
    - by apply forallb_take.
    - rewrite length_take. lia. }
  split; [done|].
  unfold vat_number_validation. cbn [py_int mbind result_bind].
  rewrite py_str_within by done. cbn [mbind result_bind].
  fold normalized. rewrite Hcd. cbn [mbind result_bind].
  unfold getitem. rewrite Hc. done.
Qed.

Lemma vat_number_validation_nonneg_nth n :
  0 <= n -> exceeds_limit (count_digits n) = false ->
  vat_number_validation (PyInt n)
  = if bool_decide ([nth 10 (zfill (str_of_int n) 11) 0%N]
                    <> spec_vat_digit (take 10 (zfill (str_of_int n) 11)))
    then Raise check_digit_mismatch else Ok (zfill (str_of_int n) 11).
Proof.
  intros Hn Hlim.
  destruct (vat_number_validation_nonneg n Hn Hlim) as (_ & _ & _ & c & Hc & _ & Hres).
  by rewrite (nth_lookup_Some _ _ 0%N _ Hc).
Qed.

(** On digits, within the limit, [int] reads the number they denote. *)
Lemma vat_number_validation_digits s :
  s <> [] -> forallb is_digit s = true -> exceeds_limit (length s) = false ->
  vat_number_validation (PyStr s)
  = vat_number_validation (PyInt (Z.of_N (digits_value s))).
Proof.
  intros Hne Hs Hlim. apply vat_number_validation_by_int.
  cbn [py_int]. by apply int_of_str_digits.
Qed.

(** Digits that denote a number below [10^640] are within the limit. *)
Lemma exceeds_limit_below n :
  Z.abs n < 10 ^ 640 -> exceeds_limit (count_digits n) = false.
Proof.
  intros Hn. apply exceeds_limit_640. unfold count_digits.
  apply length_str_of_N; [lia|].
  change (10 ^ N.of_nat 640)%N with (Z.to_N (10 ^ 640)). lia.
Qed.

End Vat.

Section VatClaims.
Context `{py : Interpreter}.

(** C5. On a string of at most 10 digits, [vat_number_check_digit] pads it
    with zeros on the left to 10 digits and returns the digit
    [(10 - (S mod 10)) mod 10], where [S] adds the digits at the 0-based
    positions 0, 2, 4, 6, 8 and, for each digit [d] at the positions 1, 3, 5,
    7, 9, [(2d div 10) + (2d mod 10)]. For ["1234567001"] the digit is ["7"],
    and ["12345670017"] passes [vat_number_validation]. *)
Theorem vat_number_check_digit_luhn :
  (forall s, forallb is_digit s = true -> (length s <= 10)%nat ->
     let padded := replicate (10 - length s) (ch "0") ++ s in
     length padded = 10%nat
     /\ vat_number_check_digit (PyStr s) = Ok (spec_vat_digit padded))
  /\ vat_number_check_digit (PyStr (text "1234567001")) = Ok (text "7")
  /\ vat_number_validation (PyStr (text "12345670017")) = Ok (text "12345670017").
Proof.
  split; [|split].
  - intros s Hs Hl padded. split.
    + unfold padded. rewrite length_app, length_replicate. lia.
    + rewrite vat_number_check_digit_digits by done. by rewrite zfill_digits.
  - by rewrite vat_number_check_digit_normalized by (done || cbn; lia).
  - rewrite vat_number_validation_digits
      by (done || apply exceeds_limit_640; cbn; lia).
    by rewrite vat_number_validation_nonneg_nth
      by (done || apply exceeds_limit_below; done).
Qed.

(** C6, amended. [vat_number_validation] first calls [int] on its input, and
    an input [int] refuses is refused with the error of [int]. A number of
    more digits than the interpreter converts is refused with the
    [ValueError] of [str]; numbers below [10^640] are never so. Within that
    limit: when the number is negative, the check-digit computation raises
    the [ValueError] of [int("-")]; when it is not, the normalized text is
    its decimal representation padded with zeros to 11 digits (exactly 11
    below [10^11]; from there on the representation itself, of more than 11
    digits); the call raises "Check digit does not match." exactly when the
    character at index 10 differs from the check digit of the first 10, and
    returns the normalized text exactly when it does not. A string of digits
    within the limit is accepted by [int] whatever zeros lead it; one of
    more digits than the limit is refused with the [ValueError] of [int]. *)
Theorem vat_number_validation_cases :
  (forall v e, py_int v = Raise e -> vat_number_validation v = Raise e)
  /\ (forall v n, py_int v = Ok n -> exceeds_limit (count_digits n) = true ->
        vat_number_validation v = Raise ExceedsDigitLimit)
  /\ (forall n, Z.abs n < 10 ^ 640 -> exceeds_limit (count_digits n) = false)
  /\ (forall v n, py_int v = Ok n -> exceeds_limit (count_digits n) = false ->
        n < 0 ->
        vat_number_validation v = Raise (InvalidLiteral (text "-")))
  /\ (forall v n, py_int v = Ok n -> exceeds_limit (count_digits n) = false ->
        0 <= n ->
        let normalized := zfill (str_of_int n) 11 in
        forallb is_digit normalized = true
        /\ (11 <= length normalized)%nat
        /\ (n < 10 ^ 11 -> length normalized = 11%nat)
        /\ (10 ^ 11 <= n ->
            normalized = str_of_int n /\ (11 < length normalized)%nat)
        /\ digits_value normalized = Z.to_N n
        /\ exists c d,
             normalized !! 10%nat = Some c
             /\ vat_number_check_digit (PyStr (slice normalized 0 10)) = Ok [d]
             /\ (vat_number_validation v = Raise check_digit_mismatch <-> c <> d)
             /\ (vat_number_validation v = Ok normalized <-> c = d))
  /\ (forall s k, s <> [] -> forallb is_digit s = true ->
        exceeds_limit (k + length s) = false ->
        py_int (PyStr (replicate k (ch "0") ++ s)) = Ok (Z.of_N (digits_value s)))
  /\ (forall s, forallb is_digit s = true -> exceeds_limit (length s) = true ->
        vat_number_validation (PyStr s) = Raise ExceedsDigitLimit).
Proof.
  split; [|split; [|split; [|split; [|split; [|split]]]]].
  - intros v e He. unfold vat_number_validation. by rewrite He.
  - intros v n Hv Hlim. rewrite (vat_number_validation_by_int v n Hv).
    by apply vat_number_validation_exceeds.
  - apply exceeds_limit_below.
  - intros v n Hv Hlim Hn. rewrite (vat_number_validation_by_int v n Hv).
    by apply vat_number_validation_negative.
  - intros v n Hv Hlim Hn normalized. rewrite (vat_number_validation_by_int v n Hv).
    destruct (vat_number_validation_nonneg n Hn Hlim)
      as (Hd & Hl & Hval & c & Hc & Hcd & Hres).
    fold normalized in Hd, Hl, Hval, Hc, Hcd, Hres.
    split; [done|]. split; [lia|]. split; [|split; [|split; [done|]]].
    { intros Hlt. rewrite Hl, str_of_int_nonneg by done.
      pose proof (proj1 (length_str_of_N (Z.to_N n) 11 ltac:(lia))) as Hle.
      assert (length (str_of_N (Z.to_N n)) <= 11)%nat; [|lia].
      apply Hle. change (10 ^ N.of_nat 11)%N with (Z.to_N (10 ^ 11)). lia. }
    { intros Hge.
      assert (Hlong : (11 < length (str_of_int n))%nat).
      { rewrite str_of_int_nonneg by done.
        apply (length_str_of_N (Z.to_N n) 11); [lia|].
        change (10 ^ N.of_nat 11)%N with (Z.to_N (10 ^ 11)). lia. }
      split; [apply zfill_ge|]; lia. }
    set (d := digit_char (Z.to_N ((10 - vat_sum (take 10 normalized) mod 10) mod 10))).
    exists c, d. split; [done|]. split; [done|]. rewrite Hres.
    change (spec_vat_digit (take 10 normalized)) with [d].
    destruct (decide (c = d)) as [E|E].
    + rewrite bool_decide_false by (intros Hne; apply Hne; by rewrite E).
      split; split; done.
    + rewrite bool_decide_true by (intros Heq; apply E; by inversion Heq).
      split; split; done.
  - intros s k Hne Hs Hlim. cbn [py_int].
    rewrite int_of_str_digits.
    + by rewrite digits_value_zeros.
    + destruct k; [by rewrite app_nil_l|done].
    + by rewrite forallb_app, forallb_replicate_zero, Hs.
    + by rewrite length_app, length_replicate.
  - intros s Hs Hlim. unfold vat_number_validation. cbn [py_int].
    by rewrite int_of_str_too_long.
Qed.

(** C9. Validating again what [vat_number_validation] returned returns it
    again. *)
Theorem vat_number_validation_idempotent v s :
  vat_number_validation v = Ok s -> vat_number_validation (PyStr s) = Ok s.
Proof.
  intros Hv. destruct (py_int v) as [n|e] eqn:Hi.
  - rewrite (vat_number_validation_by_int v n Hi) in Hv.
    destruct (exceeds_limit (count_digits n)) eqn:Hlim.
    { by rewrite vat_number_validation_exceeds in Hv. }
    destruct (Z.lt_ge_cases n 0) as [Hn|Hn].
    { by rewrite vat_number_validation_negative in Hv. }
    destruct (vat_number_validation_nonneg n Hn Hlim)
      as (Hd & Hl & Hval & c & Hc & Hcd & Hres).
    assert (Hs : s = zfill (str_of_int n) 11).
    { rewrite Hres in Hv. by destruct (bool_decide _); inversion Hv. }
    rewrite <- Hs in *.
    rewrite (vat_number_validation_by_int (PyStr s) n); [done|].
    cbn [py_int]. rewrite int_of_str_digits.
    + rewrite Hval. f_equal. lia.
    + intros ->. cbn in Hl. lia.
    + done.
    + rewrite Hl. apply exceeds_limit_max; [lia|].
      by rewrite <- count_digits_nonneg.
  - unfold vat_number_validation in Hv. by rewrite Hi in Hv.
Qed.

(** C10, amended. The code sets no upper bound on the length, the
    interpreter does. When the input denotes a non-negative number whose
    decimal representation has more than 11 digits and no more than the
    interpreter converts, padding leaves that representation as it is, the
    only error possible is "Check digit does not match.", and the
    representation is returned as it is as soon as its character at index 10
    is the check digit of its first 10. When it has more digits than the
    interpreter converts, the call raises the [ValueError] of [str]. From
    [10^11] on there are more than 11 digits; below [10^640] the digits are
    always converted, and so are all of them when the interpreter has no
    limit; the 12 digits of ["123456700170"] are accepted and returned. *)
Theorem vat_number_validation_no_upper_bound :
  (forall v n, py_int v = Ok n -> 0 <= n -> (11 < length (str_of_int n))%nat ->
     exceeds_limit (length (str_of_int n)) = false ->
     let s := str_of_int n in
     zfill s 11 = s
     /\ (vat_number_validation v = Ok s
         \/ vat_number_validation v = Raise check_digit_mismatch)
     /\ (forall c, s !! 10%nat = Some c ->
           vat_number_check_digit (PyStr (slice s 0 10)) = Ok [c] ->
           vat_number_validation v = Ok s))
  /\ (forall v n, py_int v = Ok n -> 0 <= n ->
        exceeds_limit (length (str_of_int n)) = true ->
        vat_number_validation v = Raise ExceedsDigitLimit)
  /\ (forall n, 10 ^ 11 <= n -> (11 < length (str_of_int n))%nat)
  /\ (forall n, 0 <= n < 10 ^ 640 -> exceeds_limit (length (str_of_int n)) = false)
  /\ (int_max_str_digits = None -> forall digits, exceeds_limit digits = false)
  /\ vat_number_validation (PyStr (text "123456700170")) = Ok (text "123456700170").
Proof.
  split; [|split; [|split; [|split; [|split]]]].
  - intros v n Hv Hn Hlen Hlim s. rewrite (vat_number_validation_by_int v n Hv).
    rewrite <- count_digits_nonneg in Hlim by done.
    assert (Hz : zfill s 11 = s) by (apply zfill_ge; unfold s; lia).
    destruct (vat_number_validation_nonneg n Hn Hlim)
      as (Hd & Hl & Hval & c & Hc & Hcd & Hres).
    fold s in Hd, Hl, Hval, Hc, Hcd, Hres. rewrite Hz in *.
    split; [done|]. rewrite Hres. split.
    + destruct (bool_decide _); [by right|by left].
    + intros c' Hc' Hcd'. rewrite Hc in Hc'. injection Hc' as ->.
      rewrite Hcd in Hcd'. injection Hcd' as <-.
      rewrite bool_decide_false; [done|]. intros Hne. by apply Hne.
  - intros v n Hv Hn Hlim. rewrite (vat_number_validation_by_int v n Hv).
    apply vat_number_validation_exceeds. by rewrite count_digits_nonneg.
  - intros n Hn. rewrite str_of_int_nonneg by lia.
    apply (length_str_of_N (Z.to_N n) 11); [lia|].
    change (10 ^ N.of_nat 11)%N with (Z.to_N (10 ^ 11)). lia.
  - intros n Hn. rewrite <- count_digits_nonneg by lia.
    apply exceeds_limit_below. lia.
  - intros Hnone digits. unfold exceeds_limit. by rewrite Hnone.
  - rewrite vat_number_validation_digits
      by (done || apply exceeds_limit_640; cbn; lia).
    by rewrite vat_number_validation_nonneg_nth
      by (done || apply exceeds_limit_below; done).
Qed.

End VatClaims.

(** ** The theorems at concrete inputs *)

(** C1 at ["rccmnl83s18d969h"], which upper-cases to 16 characters of
    [[0-9A-Z]]: the letter is ["H"]. *)
Lemma ssn_check_digit_weighted_sum_witness :
  (15 <= length (@upper ascii_only (text "rccmnl83s18d969h")))%nat
  /\ forallb is_alnum (take 15 (@upper ascii_only (text "rccmnl83s18d969h"))) = true
  /\ @ssn_check_digit ascii_only (text "rccmnl83s18d969h") = Ok (text "H").
Proof.
  split; [vm_compute; lia|]. split; [reflexivity|].
  apply (@ssn_check_digit_weighted_sum ascii_only (text "rccmnl83s18d969h"));
    [vm_compute; lia | reflexivity].
Defined.

(** C7 at ["RCCMNL83S18D969"], 15 characters of [[0-9A-Z]], and at
    ["RCCMNL-3S18D969"], whose seventh character is not in the alphabet. *)
Lemma ssn_check_digit_total_or_names_offender_witness :
  (exists c, @ssn_check_digit ascii_only (text "RCCMNL83S18D969") = Ok [c]
             /\ is_upper c = true)
  /\ @ssn_check_digit ascii_only (text "RCCMNL-3S18D969") = Raise (not_allowed (ch "-")).
Proof.
  split.
  - apply (proj1 (@ssn_check_digit_total_or_names_offender ascii_only
                    (text "RCCMNL83S18D969"))); reflexivity.
  - apply (proj1 (proj2 (@ssn_check_digit_total_or_names_offender ascii_only
                           (text "RCCMNL-3S18D969"))) (ch "-")).
    reflexivity.
Defined.

(** C4 at ["RCCMNL83S18D969H"]: it validates, and no longer does with ["X"]
    in the place of the final ["H"]. *)
Lemma ssn_validation_iff_check_digit_witness :
  @ssn_validation ascii_only (text "RCCMNL83S18D969H") = Ok (text "RCCMNL83S18D969H")
  /\ @ssn_validation ascii_only (text "RCCMNL83S18D969X") = Raise check_digit_mismatch.
Proof.
  pose proof (@ssn_validation_iff_check_digit ascii_only
                (text "RCCMNL83S18D969H") (ch "H") eq_refl eq_refl eq_refl)
    as (Hok & _ & Hflip).
  assert (Hv : @ssn_validation ascii_only (text "RCCMNL83S18D969H")
               = Ok (text "RCCMNL83S18D969H")) by (apply Hok; reflexivity).
  split; [exact Hv|].
  apply (Hflip (ch "X") Hv). intros H. vm_compute in H. discriminate H.
Defined.

(** C8 at ["CNTCHR83T41D969D"], whose day field is 41. *)
Lemma ssn_get_sex_from_day_field_witness :
  exists s, PyStr (text "CNTCHR83T41D969D") = PyStr s
    /\ @ssn_get_sex ascii_only (PyStr (text "CNTCHR83T41D969D"))
       = Ok (if two_digits s 9 <? 32 then text "M" else text "F").
Proof.
  apply (proj1 (@ssn_get_sex_from_day_field ascii_only)). reflexivity.
Defined.

(** C5 at ["4567001"], seven digits, padded to ["0004567001"]. *)
Lemma vat_number_check_digit_luhn_witness :
  length (replicate (10 - length (text "4567001")) (ch "0") ++ text "4567001") = 10%nat
  /\ @vat_number_check_digit ascii_only (PyStr (text "4567001"))
     = Ok (spec_vat_digit (text "0004567001")).
Proof.
  apply (proj1 (@vat_number_check_digit_luhn ascii_only) (text "4567001"));
    [reflexivity | vm_compute; lia].
Defined.

(** C6, as the claim states it, fails at the integer [-5]: [int] accepts it,
    the normalized text is ["-0000000005"], and the call neither returns nor
    raises "Check digit does not match.": the check-digit computation raises
    the [ValueError] of [int("-")]. (By [vat_number_validation_negative] this
    is so for every negative number the interpreter converts, whatever its
    tables.) *)
Lemma vat_number_validation_negative_input :
  @py_int ascii_only (PyInt (-5)) = Ok (-5)
  /\ zfill (str_of_int (-5)) 11 = text "-0000000005"
  /\ @vat_number_check_digit ascii_only (PyStr (slice (text "-0000000005") 0 10))
     = Raise (InvalidLiteral (text "-"))
  /\ @vat_number_validation ascii_only (PyInt (-5)) = Raise (InvalidLiteral (text "-"))
  /\ ~ (@vat_number_validation ascii_only (PyInt (-5)) = Raise check_digit_mismatch
        \/ exists s, @vat_number_validation ascii_only (PyInt (-5)) = Ok s).
Proof.
  repeat split; try reflexivity.
  intros [H | [s H]]; vm_compute in H; discriminate H.
Qed.

(** C6, amended, at ["0012345670017"]: the zeros in front are dropped and the
    text is padded again to 11 digits. *)
Lemma vat_number_validation_cases_witness :
  @vat_number_validation ascii_only (PyStr (text "0012345670017"))
  = Ok (text "12345670017").
Proof.
  pose proof (proj1 (proj2 (proj2 (proj2 (proj2
                (@vat_number_validation_cases ascii_only)))))
                (PyStr (text "0012345670017")) 12345670017 eq_refl eq_refl
                ltac:(discriminate))
    as (_ & _ & _ & _ & _ & c & d & Hc & Hcd & _ & Hok).
  apply Hok. vm_compute in Hc, Hcd. congruence.
Defined.

(** C9 at the integer [12345670017]. *)
Lemma vat_number_validation_idempotent_witness :
  @vat_number_validation ascii_only (PyInt 12345670017) = Ok (text "12345670017")
  /\ @vat_number_validation ascii_only (PyStr (text "12345670017"))
     = Ok (text "12345670017").
Proof.
  split; [reflexivity|].
  apply (@vat_number_validation_idempotent ascii_only (PyInt 12345670017)).
  reflexivity.
Defined.

(** * Further properties of the code *)

(** ** The decoders and their precondition *)

Section DecodersPrecondition.
Context `{py : Interpreter}.
Variable CODICI_CHOICES : gmap (list N) (list N).

(** X2. The three decoders raise [AssertionError] on whatever [ssn_isvalid]
    refuses, and return on whatever it accepts. *)
Theorem decoders_assert_ssn_isvalid code :
  (ssn_isvalid code = false ->
     ssn_get_birthday code = Raise AssertionError
     /\ ssn_get_sex code = Raise AssertionError
     /\ ssn_get_municipality CODICI_CHOICES code = Raise AssertionError)
  /\ (ssn_isvalid code = true ->
        exists birthday sex place,
          ssn_get_birthday code = Ok birthday
          /\ ssn_get_sex code = Ok sex
          /\ ssn_get_municipality CODICI_CHOICES code = Ok place).
Proof.
  split; intros Hv.
  - unfold ssn_get_birthday, ssn_get_sex, ssn_get_municipality.
    by rewrite (assert_valid_raises code Hv).
  - destruct code as [s| |]; try discriminate Hv.
    rewrite (ssn_get_birthday_valid s Hv), (ssn_get_sex_valid s Hv).
    unfold ssn_get_municipality. rewrite (assert_valid_ok s Hv).
    by eexists _, _, _.
Qed.

(** X4. On a code of the 16-character shape, [ssn_get_municipality] looks
    the characters at the indices 11 to 14 up in the table and returns
    ["Altro"] when they are not a key. On the other codes [ssn_isvalid]
    accepts, the 16 characters followed by a newline, the slice is counted
    from the end and is the characters at the indices 12 to 15, check letter
    included. *)
Theorem ssn_get_municipality_key s :
  has_shape s = true ->
  ssn_get_municipality CODICI_CHOICES (PyStr s)
  = Ok (dict_get CODICI_CHOICES (slice s 11 15) (text "Altro"))
  /\ ssn_get_municipality CODICI_CHOICES (PyStr (s ++ [LF]))
     = Ok (dict_get CODICI_CHOICES (slice s 12 16) (text "Altro")).
Proof.
  intros Hs.
  assert (Hl : length s = 16%nat)
    by (unfold has_shape in Hs; apply andb_true_iff in Hs as [Hl _];
        by apply Nat.eqb_eq).
  assert (Hv1 : ssn_isvalid (PyStr s) = true).
  { cbn [ssn_isvalid]. rewrite re_match_PATTERN_shape.
    rewrite take_ge, drop_ge by lia. by rewrite Hs. }
  assert (Hv2 : ssn_isvalid (PyStr (s ++ [LF])) = true).
  { cbn [ssn_isvalid]. rewrite re_match_PATTERN_shape.
    rewrite take_app_length', drop_app_length' by done. by rewrite Hs. }
  unfold ssn_get_municipality.
  rewrite (assert_valid_ok _ Hv1), (assert_valid_ok _ Hv2).
  cbn [mbind result_bind]. unfold slice_from_end. rewrite length_app, Hl.
  split; [done|]. do 2 f_equal. unfold slice. cbn [length Nat.add Nat.sub].
  rewrite drop_app_le by lia. rewrite take_app_le; [done|].
  rewrite length_drop. lia.
Qed.

End DecodersPrecondition.

(** ** The checksum of a fiscal code *)

Lemma for_each_ext {S} (f g : nat -> S -> result S) indices :
  (forall i s, In i indices -> f i s = g i s) ->
  forall s, for_each indices f s = for_each indices g s.
Proof.
  induction indices as [|i rest IH]; intros Hfg s; [done|].
  cbn [for_each]. rewrite (Hfg i s) by (by left).
  destruct (g i s); [|done]. cbn [mbind result_bind].
  apply IH. intros j s' Hj. apply Hfg. by right.
Qed.

Lemma length_take_15 (l : list N) :
  (15 <=? length l)%nat = (length (take 15 l) =? 15)%nat.
Proof.
  rewrite length_take.
  destruct (Nat.leb_spec 15 (length l)), (Nat.eqb_spec (15 `min` length l) 15); lia.
Qed.

Section ChecksumProperties.
Context `{py : Interpreter}.

(** X5. When the upper-cased text has fewer than 15 characters, all of them
    in [[0-9A-Z]], [ssn_check_digit] raises [IndexError], and so does
    [ssn_validation]: the empty string is such a text. *)
Theorem ssn_check_digit_short value :
  (length (upper value) < 15)%nat -> forallb is_alnum (upper value) = true ->
  ssn_check_digit value = Raise IndexError
  /\ ssn_validation value = Raise IndexError.
Proof.
  intros Hl Ha.
  assert (Hc : ssn_check_digit value = Raise IndexError).
  { rewrite ssn_check_digit_cases. unfold first_offending.
    rewrite take_ge by lia. apply find_none_forallb in Ha. rewrite Ha.
    by destruct (Nat.leb_spec 15 (length (upper value))); [lia|]. }
  split; [done|]. unfold ssn_validation. by rewrite Hc.
Qed.

(** X6. [ssn_check_digit] only sees the first 15 characters of the
    upper-cased text: two values that agree there get the same result, be it
    a letter or an error. *)
Theorem ssn_check_digit_first_15 v1 v2 :
  take 15 (upper v1) = take 15 (upper v2) ->
  ssn_check_digit v1 = ssn_check_digit v2.
Proof.
  intros Ht. rewrite !ssn_check_digit_cases. unfold first_offending.
  rewrite !length_take_15, <- (weighted_sum_take (upper v1)),
    <- (weighted_sum_take (upper v2)), Ht. done.
Qed.

(** X7. Whatever [ssn_validation] returns is its argument, and then the
    character at index 15 is a capital letter, the one [ssn_check_digit]
    computes: a lower-case check letter is never accepted. *)
Theorem ssn_validation_returns code r :
  ssn_validation code = Ok r ->
  r = code
  /\ exists c, code !! 15%nat = Some c /\ is_upper c = true
               /\ ssn_check_digit code = Ok [c].
Proof.
  unfold ssn_validation, getitem. rewrite ssn_check_digit_cases.
  destruct (first_offending (upper code)); [done|].
  destruct (15 <=? length (upper code))%nat; [|done].
  cbn [mbind result_bind]. destruct (code !! 15%nat) as [c|]; [|done].
  cbn [mbind result_bind]. case_bool_decide as Hne; [done|].
  intros [= <-]. split; [done|]. exists c.
  assert (Hc : [c] = chr (65 + weighted_sum (upper code) mod 26))
    by (destruct (decide ([c] = chr (65 + weighted_sum (upper code) mod 26)));
        [done|contradiction]).
  split; [done|]. split; [|by rewrite Hc].
  pose proof (Z.mod_pos_bound (weighted_sum (upper code)) 26 eq_refl) as Hm.
  injection Hc as ->. char_lia.
Qed.

(** X8. [ssn_validation] has no check of the length: what follows the 16th
    character of a code is ignored, and returned with it. *)
Theorem ssn_validation_ignores_tail code tail :
  length code = 16%nat -> forallb is_alnum (take 15 code) = true ->
  (ssn_validation (code ++ tail) = Ok (code ++ tail)
   <-> ssn_validation code = Ok code).
Proof.
  intros Hl Ha.
  assert (Hcd : ssn_check_digit (code ++ tail) = ssn_check_digit code).
  { rewrite !ssn_check_digit_alnum15.
    - by rewrite <- (weighted_sum_take (code ++ tail)), take_app_le,
        weighted_sum_take by lia.
    - lia.
    - done.
    - rewrite length_app. lia.
    - by rewrite take_app_le by lia. }
  unfold ssn_validation, getitem. rewrite Hcd.
  rewrite lookup_app_l by lia.
  destruct (ssn_check_digit code) as [d|]; [|done]. cbn [mbind result_bind].
  destruct (code !! 15%nat) as [c|]; [|done]. cbn [mbind result_bind].
  by destruct (bool_decide _).
Qed.

Lemma upper_cons_alnum pre x post :
  is_alnum x = true -> upper (pre ++ x :: post) = upper pre ++ x :: upper post.
Proof.
  intros Hx. rewrite upper_app. f_equal.
  change (x :: post) with ([x] ++ post).
  rewrite upper_app. unfold upper at 1. cbn [flat_map].
  by rewrite (upper_char_alnum x Hx).
Qed.

(** X9. In both tables a digit weighs what the letter of the same rank
    among ['A'..'J'] weighs, so [ssn_check_digit] cannot tell them apart:
    putting ['A'] for ['0'], ['B'] for ['1'], ... anywhere in a value leaves
    its result as it was. *)
Theorem ssn_check_digit_digit_as_letter pre d post :
  is_digit d = true ->
  ssn_check_digit (pre ++ (d + 17)%N :: post) = ssn_check_digit (pre ++ d :: post).
Proof.
  intros Hd.
  assert (Hl : is_alnum (d + 17) = true)
    by (unfold is_alnum; apply orb_true_iff; right; char_lia).
  assert (Hd' : is_alnum d = true) by (unfold is_alnum; by rewrite Hd).
  assert (Hw : table_weight odd_table_digits odd_table_letters (d + 17)
               = table_weight odd_table_digits odd_table_letters d
               /\ table_weight even_table_digits even_table_letters (d + 17)
                  = table_weight even_table_digits even_table_letters d).
  { assert (d = 48 \/ d = 49 \/ d = 50 \/ d = 51 \/ d = 52 \/ d = 53 \/ d = 54
            \/ d = 55 \/ d = 56 \/ d = 57)%N as Hc by char_lia.
    repeat destruct Hc as [-> | Hc]; try subst d; by split. }
  unfold ssn_check_digit. rewrite !upper_cons_alnum by done.
  set (P := upper pre). set (Q := upper post).
  rewrite (for_each_ext (ssn_step (P ++ (d + 17)%N :: Q)) (ssn_step (P ++ d :: Q)));
    [done|].
  intros i total _. unfold ssn_step, getitem.
  destruct (decide (i = length P)) as [->|Hi].
  - rewrite !list_lookup_middle by done. cbn [mbind result_bind].
    destruct (chars_alnum d Hd') as [Ho He].
    destruct (chars_alnum _ Hl) as [Ho' He'].
    destruct Hw as [Hwo Hwe].
    destruct (_ =? 0)%nat; [by rewrite Ho, Ho', Hwo | by rewrite He, He', Hwe].
  - destruct (Nat.lt_ge_cases i (length P)).
    + by rewrite !lookup_app_l by lia.
    + rewrite !lookup_app_r by lia.
      destruct (i - length P)%nat as [|k] eqn:Hk; [lia|done].
Qed.

End ChecksumProperties.

(** ** Substitutions the checksum detects *)

Lemma weights_differ_below :
  forallb (fun x => forallb (weights_differ x) (map N.of_nat (seq 0 91)))
    (map N.of_nat (seq 0 91)) = true.
Proof. vm_compute. reflexivity. Qed.

Lemma weight_bounded_below : forallb weight_bounded (map N.of_nat (seq 0 91)) = true.
Proof. vm_compute. reflexivity. Qed.

Lemma same_kind_alnum x y :
  same_kind x y = true -> is_alnum x = true /\ is_alnum y = true.
Proof.
  unfold same_kind, is_alnum.
  intros [[-> ->]%andb_true_iff | [-> ->]%andb_true_iff]%orb_true_iff;
    by rewrite ?orb_true_r.
Qed.

Lemma spec_weight_differ i x y :
  same_kind x y = true -> x <> y ->
  spec_weight i x <> spec_weight i y
  /\ 0 <= spec_weight i x <= 25 /\ 0 <= spec_weight i y <= 25.
Proof.
  intros Hk Hne. destruct (same_kind_alnum x y Hk) as [Hx Hy].
  pose proof (forall_below _ _ weights_differ_below x (is_alnum_below x Hx)) as Hd.
  cbv beta in Hd.
  pose proof (forall_below _ _ Hd y (is_alnum_below y Hy)) as Hxy.
  pose proof (forall_below _ _ weight_bounded_below x (is_alnum_below x Hx)) as Hbx.
  pose proof (forall_below _ _ weight_bounded_below y (is_alnum_below y Hy)) as Hby.
  unfold weights_differ in Hxy. rewrite Hk in Hxy.
  replace (x =? y)%N with false in Hxy by (symmetry; by apply N.eqb_neq).
  cbn [andb negb implb] in Hxy. apply andb_true_iff in Hxy as [Ho He].
  apply negb_true_iff, Z.eqb_neq in Ho. apply negb_true_iff, Z.eqb_neq in He.
  unfold weight_bounded in Hbx, Hby.
  repeat match goal with
    | H : _ && _ = true |- _ => apply andb_true_iff in H as [? ?]
    | H : (_ <=? _) = true |- _ => apply Z.leb_le in H
    end.
  unfold spec_weight. destruct (Nat.even i); (split; [done|lia]).
Qed.

Lemma foldr_add_app a b :
  foldr Z.add 0 (a ++ b) = foldr Z.add 0 a + foldr Z.add 0 b.
Proof. induction a as [|z a IH]; cbn; [done|]. rewrite IH. lia. Qed.

(** The sum of the weights, when the character at an index below 15 is set
    apart. *)
Lemma weighted_sum_middle pre x post :
  (length pre < 15)%nat ->
  weighted_sum (pre ++ x :: post)
  = foldr Z.add 0 (imap spec_weight pre) + spec_weight (length pre) x
    + foldr Z.add 0
        (imap (spec_weight ∘ Nat.add (S (length pre)))
           (take (14 - length pre) post)).
Proof.
  intros Hl. unfold weighted_sum.
  rewrite take_app_ge by lia.
  replace (15 - length pre)%nat with (S (14 - length pre)) by lia.
  cbn [take]. rewrite imap_app, foldr_add_app. cbn [imap foldr].
  rewrite Nat.add_0_r. rewrite Z.add_assoc. do 2 f_equal.
  apply imap_ext. intros k z _. cbn. f_equal. lia.
Qed.

Lemma forallb_middle (p : N -> bool) n pre x y post :
  (length pre < n)%nat -> p y = true ->
  forallb p (take n (pre ++ x :: post)) = true ->
  forallb p (take n (pre ++ y :: post)) = true.
Proof.
  intros Hl Hy. rewrite !take_app_ge by lia.
  destruct (n - length pre)%nat as [|k] eqn:Hk; [lia|]. cbn [take].
  rewrite !forallb_app. cbn [forallb].
  intros [Hp [_ Hq]%andb_true_iff]%andb_true_iff. by rewrite Hp, Hy, Hq.
Qed.

Section ChecksumDetects.
Context `{py : Interpreter}.

(** X10. Among the first 15 characters of a value over [[0-9A-Z]], putting a
    different digit for a digit, or a different letter for a letter, always
    changes the letter [ssn_check_digit] returns. *)
Theorem ssn_check_digit_detects_substitution pre x y post :
  (length pre < 15)%nat -> (15 <= length (pre ++ x :: post))%nat ->
  forallb is_alnum (take 15 (pre ++ x :: post)) = true ->
  same_kind x y = true -> x <> y ->
  exists a b,
    ssn_check_digit (pre ++ x :: post) = Ok [a]
    /\ ssn_check_digit (pre ++ y :: post) = Ok [b]
    /\ a <> b.
Proof.
  intros Hl Hlen Ha Hk Hne.
  destruct (same_kind_alnum x y Hk) as [Hx Hy].
  pose proof (forallb_middle is_alnum 15 pre x y post Hl Hy Ha) as Ha'.
  assert (Hlen' : (15 <= length (pre ++ y :: post))%nat)
    by (rewrite length_app in *; cbn [length] in *; lia).
  rewrite !ssn_check_digit_alnum15 by done.
  eexists _, _. split; [reflexivity|]. split; [reflexivity|].
  rewrite !weighted_sum_middle by done.
  destruct (spec_weight_differ (length pre) x y Hk Hne) as (Hd & Hbx & Hby).
  remember (foldr Z.add 0 (imap spec_weight pre)) as A eqn:HA.
  remember (foldr Z.add 0 (imap (spec_weight ∘ Nat.add (S (length pre)))
                             (take (14 - length pre) post))) as B eqn:HB.
  clear HA HB.
  pose proof (Z.mod_pos_bound (A + spec_weight (length pre) x + B) 26 eq_refl).
  pose proof (Z.mod_pos_bound (A + spec_weight (length pre) y + B) 26 eq_refl).
  intros Heq. apply (f_equal Z.of_N) in Heq.
  rewrite !Z2N.id in Heq by lia. Z.div_mod_to_equations. lia.
Qed.

End ChecksumDetects.

(** ** Digit strings of a given length *)

Lemma value_from_split l : forall acc,
  value_from acc l = (acc * 10 ^ N.of_nat (length l) + value_from 0 l)%N.
Proof.
  unfold value_from. induction l as [|x l IH]; intros acc.
  - cbn. lia.
  - cbn [fold_left length]. rewrite (IH (10 * acc + x)%N), (IH (10 * 0 + x)%N).
    rewrite Nat2N.inj_succ, N.pow_succ_r'. lia.
Qed.

Lemma value_from_inj l1 : forall l2,
  length l1 = length l2 ->
  Forall (fun x => (x < 10)%N) l1 -> Forall (fun x => (x < 10)%N) l2 ->
  value_from 0 l1 = value_from 0 l2 -> l1 = l2.
Proof.
  induction l1 as [|x1 l1 IH]; intros [|x2 l2] Hlen H1 H2 Hv; try done.
  apply Forall_cons in H1 as [Hx1 H1]. apply Forall_cons in H2 as [Hx2 H2].
  injection Hlen as Hlen.
  pose proof (value_from_lt l1 0%N H1) as Hb1.
  pose proof (value_from_lt l2 0%N H2) as Hb2.
  unfold value_from in Hv. cbn [fold_left] in Hv.
  fold (value_from (10 * 0 + x1) l1) in Hv. fold (value_from (10 * 0 + x2) l2) in Hv.
  rewrite (value_from_split l1), (value_from_split l2), <- Hlen in Hv.
  rewrite <- Hlen in Hb2.
  set (P := (10 ^ N.of_nat (length l1))%N) in *.
  assert (x1 = x2) as -> by nia.
  f_equal. apply IH; try done. lia.
Qed.

Lemma digits_value_values s :
  digits_value s = value_from 0 (map (fun c => (c - ch "0")%N) s).
Proof.
  unfold digits_value, value_from. generalize 0%N.
  induction s as [|c s IH]; intros acc; [done|]. cbn [map fold_left]. apply IH.
Qed.

Lemma digit_values_small s :
  forallb is_digit s = true ->
  Forall (fun x => (x < 10)%N) (map (fun c => (c - ch "0")%N) s).
Proof.
  induction s as [|c s IH]; cbn; [constructor|].
  intros [Hc Hs]%andb_true_iff. constructor; [char_lia|by apply IH].
Qed.

Lemma digit_values_inj s1 : forall s2,
  forallb is_digit s1 = true -> forallb is_digit s2 = true ->
  map (fun c => (c - ch "0")%N) s1 = map (fun c => (c - ch "0")%N) s2 -> s1 = s2.
Proof.
  induction s1 as [|c1 s1 IH]; intros [|c2 s2]; cbn; try done.
  intros [Hc1 Hs1]%andb_true_iff [Hc2 Hs2]%andb_true_iff [= Hc Hs].
  f_equal; [char_lia|by apply IH].
Qed.

(** Two strings of digits of one length that denote one number are one
    string. *)
Lemma digits_value_inj s1 s2 :
  forallb is_digit s1 = true -> forallb is_digit s2 = true ->
  length s1 = length s2 -> digits_value s1 = digits_value s2 -> s1 = s2.
Proof.
  intros H1 H2 Hlen Hv. apply digit_values_inj; try done.
  apply value_from_inj.
  - by rewrite !length_map.
  - by apply digit_values_small.
  - by apply digit_values_small.
  - by rewrite <- !digits_value_values.
Qed.

Lemma digits_value_lt s :
  forallb is_digit s = true -> (digits_value s < 10 ^ N.of_nat (length s))%N.
Proof.
  intros Hs. rewrite digits_value_values.
  pose proof (value_from_lt _ 0%N (digit_values_small s Hs)) as Hlt.
  rewrite length_map in Hlt. lia.
Qed.

Lemma count_digits_of_digits s :
  s <> [] -> forallb is_digit s = true ->
  (count_digits (Z.of_N (digits_value s)) <= length s)%nat.
Proof.
  intros Hne Hs. unfold count_digits. rewrite Zabs2N.id.
  apply length_str_of_N; [destruct s; [done|cbn; lia]|].
  by apply digits_value_lt.
Qed.

(** [str(int(s)).zfill(len(s))] is [s], for a string of digits. *)
Lemma zfill_str_of_digits s :
  s <> [] -> forallb is_digit s = true ->
  zfill (str_of_N (digits_value s)) (length s) = s.
Proof.
  intros Hne Hs.
  assert (Hl : (1 <= length s)%nat) by (destruct s; [done|cbn; lia]).
  pose proof (proj1 (length_str_of_N (digits_value s) (length s) Hl)
                (digits_value_lt s Hs)) as Hle.
  apply digits_value_inj.
  - apply zfill_digits_all, str_of_N_digits.
  - done.
  - rewrite length_zfill_digits by apply str_of_N_digits. lia.
  - rewrite zfill_digits by apply str_of_N_digits.
    by rewrite digits_value_zeros, digits_value_str_of_N.
Qed.

Lemma vat_sum_take s : (10 <= length s)%nat -> vat_sum (take 10 s) = vat_sum s.
Proof.
  intros Hl. do 10 (destruct s as [|? s]; [cbn in Hl; lia|]). reflexivity.
Qed.

Lemma vat_sum_app s tail : (10 <= length s)%nat -> vat_sum (s ++ tail) = vat_sum s.
Proof.
  intros Hl. do 10 (destruct s as [|? s]; [cbn in Hl; lia|]). reflexivity.
Qed.

Lemma digit_char_value c :
  is_digit c = true -> digit_char (Z.to_N (digit_value c)) = c.
Proof. intros Hc. unfold digit_char, digit_value. char_lia. Qed.

Lemma luhn_digit_differs a b :
  0 <= a <= 9 -> 0 <= b <= 9 -> a <> b ->
  (luhn_digit a - luhn_digit b) mod 10 <> 0.
Proof. intros Ha Hb Hne. unfold luhn_digit. Z.div_mod_to_equations. lia. Qed.

Lemma digit_value_bounds c : is_digit c = true -> 0 <= digit_value c <= 9.
Proof. intros Hc. unfold digit_value. char_lia. Qed.

Lemma digit_value_inj x y :
  is_digit x = true -> is_digit y = true -> digit_value x = digit_value y -> x = y.
Proof. intros Hx Hy. unfold digit_value. intros H. char_lia. Qed.

Section VatProperties.
Context `{py : Interpreter}.

(** The two loops of [vat_number_check_digit] read ten characters. *)
Lemma vat_number_check_digit_first_ten t :
  forallb is_digit (take 10 t) = true -> (10 <= length t)%nat ->
  vat_number_check_digit (PyStr t) = Ok (spec_vat_digit t).
Proof.
  intros Hd Hl.
  rewrite <- (take_drop 10 t) at 1.
  assert (Hn : vat_number_check_digit (PyStr (take 10 t ++ drop 10 t))
               = vat_number_check_digit (PyStr (take 10 t))).
  { unfold vat_number_check_digit. cbn [smart_text mbind result_bind].
    rewrite !zfill_ge by (rewrite ?length_app, length_take; lia).
    assert (Hlt : length (take 10 t) = 10%nat) by (rewrite length_take; lia).
    revert Hlt. generalize (take 10 t) (drop 10 t). intros a b Ha.
    do 10 (destruct a as [|? a]; [discriminate Ha|]).
    destruct a; [|discriminate Ha]. reflexivity. }
  rewrite Hn, vat_number_check_digit_normalized;
    [|done|rewrite length_take; lia].
  unfold spec_vat_digit. by rewrite vat_sum_take.
Qed.

(** What [vat_number_validation] does with a string of exactly 11 digits. *)
Lemma vat_number_validation_11_digits s c :
  length s = 11%nat -> forallb is_digit s = true -> s !! 10%nat = Some c ->
  vat_number_validation (PyStr s)
  = if bool_decide ([c] <> spec_vat_digit (take 10 s))
    then Raise check_digit_mismatch else Ok s.
Proof.
  intros Hl Hs Hc.
  assert (Hne : s <> []) by (intros ->; discriminate Hl).
  assert (Hlim : exceeds_limit (length s) = false)
    by (apply exceeds_limit_640; lia).
  rewrite (vat_number_validation_digits s Hne Hs Hlim).
  destruct (vat_number_validation_nonneg (Z.of_N (digits_value s)) ltac:(lia))
    as (_ & _ & _ & c' & Hc' & _ & Hres).
  { apply (exceeds_limit_le _ (length s)); [|done].
    by apply count_digits_of_digits. }
  rewrite str_of_int_nonneg, N2Z.id in Hc', Hres by lia.
  pose proof (zfill_str_of_digits s Hne Hs) as Hz. rewrite Hl in Hz.
  rewrite Hz in Hc', Hres.
  rewrite Hc in Hc'. injection Hc' as <-. exact Hres.
Qed.

(** X11. A string of exactly 11 digits is returned as it is by
    [vat_number_validation] when its last digit is the check digit of the
    first ten, and refused with "Check digit does not match." when it is
    not. *)
Theorem vat_number_validation_eleven_digits s :
  length s = 11%nat -> forallb is_digit s = true ->
  exists c d,
    s !! 10%nat = Some c
    /\ vat_number_check_digit (PyStr (take 10 s)) = Ok [d]
    /\ (vat_number_validation (PyStr s) = Ok s <-> c = d)
    /\ (vat_number_validation (PyStr s) = Raise check_digit_mismatch <-> c <> d).
Proof.
  intros Hl Hs.
  destruct (s !! 10%nat) as [c|] eqn:Hc; [|apply lookup_ge_None in Hc; lia].
  set (d := digit_char (Z.to_N ((10 - vat_sum (take 10 s) mod 10) mod 10))).
  exists c, d. split; [done|]. split.
  { rewrite vat_number_check_digit_normalized;
      [done|by apply forallb_take|rewrite length_take; lia]. }
  rewrite (vat_number_validation_11_digits s c Hl Hs Hc).
  change (spec_vat_digit (take 10 s)) with [d].
  destruct (decide (c = d)) as [E|E].
  - rewrite bool_decide_false by (intros Hne; apply Hne; by rewrite E).
    split; split; done.
  - rewrite bool_decide_true by (intros Heq; apply E; by inversion Heq).
    split; split; done.
Qed.

(** X12. Whatever [vat_number_validation] returns is a string of 11 digits
    or more that denotes the number [int] read from the input; its character
    at index 10 is the check digit of its first ten; and when it is longer
    than 11, it does not start with a zero. *)
Theorem vat_number_validation_returns v s :
  vat_number_validation v = Ok s ->
  forallb is_digit s = true /\ (11 <= length s)%nat
  /\ py_int v = Ok (Z.of_N (digits_value s))
  /\ (exists c, s !! 10%nat = Some c
        /\ vat_number_check_digit (PyStr (take 10 s)) = Ok [c])
  /\ ((11 < length s)%nat -> s !! 0%nat <> Some (ch "0")).
Proof.
  intros Hv. destruct (py_int v) as [n|e] eqn:Hi;
    [|unfold vat_number_validation in Hv; by rewrite Hi in Hv].
  rewrite (vat_number_validation_by_int v n Hi) in Hv.
  destruct (exceeds_limit (count_digits n)) eqn:Hlim;
    [by rewrite vat_number_validation_exceeds in Hv|].
  destruct (Z.lt_ge_cases n 0) as [Hn|Hn];
    [by rewrite vat_number_validation_negative in Hv|].
  destruct (vat_number_validation_nonneg n Hn Hlim)
    as (Hd & Hl & Hval & c & Hc & Hcd & Hres).
  rewrite Hres in Hv.
  case_bool_decide as Hne; [discriminate Hv|]. injection Hv as Hs.
  assert (Hlong : (11 < length s)%nat -> s = str_of_N (Z.to_N n)).
  { intros Hlong. rewrite <- Hs, <- str_of_int_nonneg by done.
    apply zfill_ge. rewrite Hs in Hl. lia. }
  rewrite Hs in *. clear Hs.
  split; [done|]. split; [lia|]. split; [rewrite Hval; f_equal; lia|]. split.
  - exists c. split; [done|]. unfold slice in Hcd. rewrite drop_0 in Hcd. cbn [Nat.sub] in Hcd.
    rewrite Hcd. f_equal.
    by destruct (decide ([c] = spec_vat_digit (take 10 s))); [|contradiction].
  - intros Hlen. specialize (Hlong Hlen). rewrite Hlong in Hlen |- *.
    unfold str_of_N in *. rewrite length_map in Hlen.
    destruct (uint_digits_canonical (Z.to_N n)) as [Hz | (x & l & Hz & Hx)];
      rewrite Hz in *; [cbn in Hlen; lia|].
    cbn. intros [= Heq]. unfold digit_char in Heq. char_lia.
Qed.

End VatProperties.

(** ** What the VAT checksum detects, and round trips *)

Section VatRoundTrips.
Context `{py : Interpreter}.

(** X16. [vat_number_check_digit] reads the first ten characters only: after
    ten digits, anything may follow and the digit stays the same. *)
Theorem vat_number_check_digit_ignores_tail s tail :
  length s = 10%nat -> forallb is_digit s = true ->
  vat_number_check_digit (PyStr (s ++ tail)) = vat_number_check_digit (PyStr s).
Proof.
  intros Hl Hs.
  rewrite (vat_number_check_digit_first_ten (s ++ tail)).
  - rewrite vat_number_check_digit_normalized by (done || lia).
    unfold spec_vat_digit. by rewrite vat_sum_app by lia.
  - by rewrite take_app_le, take_ge by lia.
  - rewrite length_app. lia.
Qed.

(** X14. Appending to a payload of at most ten digits the digit
    [vat_number_check_digit] computes for it gives a string
    [vat_number_validation] accepts; what it returns is the payload padded
    with zeros to ten digits, followed by that digit. *)
Theorem vat_number_check_digit_then_validation p :
  forallb is_digit p = true -> (length p <= 10)%nat ->
  exists d,
    vat_number_check_digit (PyStr p) = Ok [d] /\ is_digit d = true
    /\ vat_number_validation (PyStr (p ++ [d])) = Ok (zfill p 10 ++ [d]).
Proof.
  intros Hp Hl.
  set (r := (10 - vat_sum (zfill p 10) mod 10) mod 10).
  assert (Hr : 0 <= r < 10) by (apply Z.mod_pos_bound; lia).
  exists (digit_char (Z.to_N r)).
  assert (Hd : is_digit (digit_char (Z.to_N r)) = true)
    by (apply is_digit_digit_char; lia).
  split; [by rewrite vat_number_check_digit_digits|]. split; [done|].
  set (d := digit_char (Z.to_N r)) in *.
  assert (Hz : forallb is_digit (zfill p 10) = true) by by apply zfill_digits_all.
  assert (Hzl : length (zfill p 10) = 10%nat)
    by (rewrite length_zfill_digits by done; lia).
  assert (Hs : forallb is_digit (zfill p 10 ++ [d]) = true)
    by (rewrite forallb_app, Hz; cbn; by rewrite Hd).
  transitivity (vat_number_validation (PyStr (zfill p 10 ++ [d]))).
  - assert (H1 : py_int (PyStr (p ++ [d])) = Ok (Z.of_N (digits_value (p ++ [d])))).
    { cbn [py_int]. apply int_of_str_digits; [by destruct p| |].
      - rewrite forallb_app, Hp. cbn. by rewrite Hd.
      - apply exceeds_limit_640. rewrite length_app. cbn. lia. }
    assert (H2 : py_int (PyStr (zfill p 10 ++ [d]))
                 = Ok (Z.of_N (digits_value (p ++ [d])))).
    { cbn [py_int]. rewrite int_of_str_digits;
        [|by destruct (zfill p 10)|done
         |apply exceeds_limit_640; rewrite length_app; cbn; lia].
      do 2 f_equal. rewrite zfill_digits by done.
      by rewrite <- app_assoc, digits_value_zeros. }
    by rewrite (vat_number_validation_by_int _ _ H1),
         (vat_number_validation_by_int _ _ H2).
  - rewrite (vat_number_validation_11_digits _ d).
    + rewrite take_app_le, take_ge by lia.
      rewrite bool_decide_false; [done|]. intros Hne. by apply Hne.
    + rewrite length_app. cbn. lia.
    + done.
    + rewrite lookup_app_r by lia. by rewrite Hzl.
Qed.

(** When a string of 11 digits validates, in terms of its digits. *)
Lemma vat_number_validation_criterion s :
  length s = 11%nat -> forallb is_digit s = true ->
  (digit_value (nth 10 s 0%N) = (10 - vat_sum s mod 10) mod 10 ->
   vat_number_validation (PyStr s) = Ok s)
  /\ (digit_value (nth 10 s 0%N) <> (10 - vat_sum s mod 10) mod 10 ->
      vat_number_validation (PyStr s) = Raise check_digit_mismatch).
Proof.
  intros Hl Hs.
  destruct (s !! 10%nat) as [c|] eqn:Hc; [|apply lookup_ge_None in Hc; lia].
  assert (Hn : nth 10 s 0%N = c) by (by apply nth_lookup_Some with (d := 0%N) in Hc).
  assert (Hcd : is_digit c = true).
  { rewrite forallb_forall in Hs. apply Hs, list_elem_of_In.
    by eapply list_elem_of_lookup_2. }
  rewrite (vat_number_validation_11_digits s c Hl Hs Hc), Hn.
  unfold spec_vat_digit. rewrite vat_sum_take by lia.
  pose proof (Z.mod_pos_bound (10 - vat_sum s mod 10) 10 eq_refl) as Hr.
  split; intros Hv.
  - rewrite bool_decide_false; [done|]. intros Hne. apply Hne.
    by rewrite <- Hv, digit_char_value.
  - rewrite bool_decide_true; [done|]. intros [= Heq]. apply Hv.
    rewrite Heq. unfold digit_value, digit_char.
    replace (ch "0" + Z.to_N ((10 - vat_sum s mod 10) mod 10) - ch "0")%N
      with (Z.to_N ((10 - vat_sum s mod 10) mod 10)) by lia.
    lia.
Qed.

(** X13. The checksum detects every single wrong digit: when a string of 11
    digits validates, the string that differs from it in one digit, whichever
    it is, is refused with "Check digit does not match.". *)
Theorem vat_number_validation_detects_one_wrong_digit pre x y post :
  length (pre ++ x :: post) = 11%nat ->
  forallb is_digit (pre ++ x :: post) = true -> is_digit y = true -> x <> y ->
  vat_number_validation (PyStr (pre ++ x :: post)) = Ok (pre ++ x :: post) ->
  vat_number_validation (PyStr (pre ++ y :: post)) = Raise check_digit_mismatch.
Proof.
  intros Hl Hs Hy Hne Hok.
  assert (Hx : is_digit x = true).
  { rewrite forallb_app in Hs. apply andb_true_iff in Hs as [_ Hs].
    cbn in Hs. by apply andb_true_iff in Hs as [? _]. }
  assert (Hs' : forallb is_digit (pre ++ y :: post) = true).
  { rewrite forallb_app in *. cbn [forallb] in *.
    apply andb_true_iff in Hs as [Hp [_ Hq]%andb_true_iff]. by rewrite Hp, Hy, Hq. }
  assert (Hl' : length (pre ++ y :: post) = 11%nat)
    by (rewrite length_app in *; cbn [length] in *; lia).
  destruct (vat_number_validation_criterion _ Hl Hs) as [_ Hbad].
  assert (Hgood : digit_value (nth 10 (pre ++ x :: post) 0%N)
                  = (10 - vat_sum (pre ++ x :: post) mod 10) mod 10).
  { destruct (Z.eq_dec (digit_value (nth 10 (pre ++ x :: post) 0%N))
                ((10 - vat_sum (pre ++ x :: post) mod 10) mod 10)) as [E|E];
      [done|]. rewrite (Hbad E) in Hok. discriminate Hok. }
  clear Hbad Hok.
  apply (proj2 (vat_number_validation_criterion _ Hl' Hs')).
  pose proof (digit_value_bounds x Hx) as Hbx.
  pose proof (digit_value_bounds y Hy) as Hby.
  assert (Hdv : digit_value x <> digit_value y)
    by (intros E; by apply Hne, digit_value_inj).
  pose proof (luhn_digit_differs _ _ Hbx Hby Hdv) as Hluhn.
  revert Hgood. clear Hs Hs' Hl'.
  do 11 (destruct pre as [|? pre];
         [unfold vat_sum; cbn [app nth map foldr]; intros Hgood;
          Z.div_mod_to_equations; lia|]).
  rewrite length_app in Hl. cbn [length] in Hl. lia.
Qed.

End VatRoundTrips.

(** ** After [ssn_isvalid] *)

Lemma is_upper_alnum c : is_upper c = true -> is_alnum c = true.
Proof. intros H. unfold is_alnum. rewrite H. apply orb_true_r. Qed.

Lemma is_digit_alnum c : is_digit c = true -> is_alnum c = true.
Proof. intros H. unfold is_alnum. by rewrite H. Qed.

Lemma is_month_alnum c : is_month c = true -> is_alnum c = true.
Proof.
  intros H. apply is_upper_alnum. revert H.
  unfold is_month, month_letters. cbn [text map list_ascii_of_string existsb].
  intros H. repeat (apply orb_true_iff in H as [H|H]; [char_lia|]). done.
Qed.

Create HintDb alnum.
#[local] Hint Resolve is_upper_alnum is_digit_alnum is_month_alnum : alnum.

(** A code [ssn_isvalid] accepts has 16 characters or more, the first 15 of
    them in [[0-9A-Z]]. *)
Lemma ssn_isvalid_alnum s :
  ssn_isvalid (PyStr s) = true ->
  (16 <= length s)%nat /\ forallb is_alnum (take 15 s) = true.
Proof.
  cbn [ssn_isvalid]. rewrite re_match_PATTERN_shape.
  intros [Hs _]%andb_true_iff. unfold has_shape in Hs.
  apply andb_true_iff in Hs as [Hlen Hs].
  do 16 (destruct s as [|? s]; [discriminate Hlen|]).
  split; [cbn [length]; lia|].
  cbn [take zip zip_with fiscal_shape replicate app forallb fst snd] in Hs.
  repeat match type of Hs with
    | _ && _ = true => let H := fresh "Hc" in apply andb_true_iff in Hs as [H Hs]
    end.
  cbn [take forallb].
  repeat (apply andb_true_iff; split); auto with alnum.
Qed.

Lemma list_index_lt x l : forall i, list_index x l = Some i -> (i < length l)%nat.
Proof.
  induction l as [|y l IH]; intros i; cbn [list_index]; [done|].
  case_bool_decide; [intros [= <-]; cbn; lia|].
  destruct (list_index x l) as [j|]; [|done]. cbn. intros [= <-].
  specialize (IH j eq_refl). lia.
Qed.

Lemma month_number_bounds c : is_month c = true -> 1 <= month_number c <= 12.
Proof.
  intros Hc. pose proof (month_index c Hc) as Hi.
  destruct (list_index [c] MONTHSCODE) as [i|] eqn:Hl; [|discriminate Hi].
  apply list_index_lt in Hl. cbn in Hi, Hl. injection Hi as <-. lia.
Qed.

Section AfterIsValid.
Context `{py : Interpreter}.

(** X17. On a code [ssn_isvalid] accepts, [ssn_check_digit] returns a capital
    letter, and [ssn_validation] either returns the code or raises "Check
    digit does not match.": no other error is possible. *)
Theorem ssn_validation_after_ssn_isvalid s :
  ssn_isvalid (PyStr s) = true ->
  exists c,
    ssn_check_digit s = Ok [c] /\ is_upper c = true
    /\ (ssn_validation s = Ok s \/ ssn_validation s = Raise check_digit_mismatch).
Proof.
  intros Hv. destruct (ssn_isvalid_alnum s Hv) as [Hl Ha].
  pose proof (ssn_check_digit_alnum15 s ltac:(lia) Ha) as Hcd.
  pose proof (Z.mod_pos_bound (weighted_sum s) 26 eq_refl) as Hm.
  exists (Z.to_N (65 + weighted_sum s mod 26)).
  split; [done|]. split; [char_lia|].
  unfold ssn_validation, getitem. rewrite Hcd. cbn [mbind result_bind].
  destruct (s !! 15%nat) as [c|] eqn:Hc; [|apply lookup_ge_None in Hc; lia].
  cbn [mbind result_bind]. destruct (bool_decide _); [by right|by left].
Qed.

(** X18. On a code [ssn_isvalid] accepts, [ssn_get_birthday] prints a day
    between -40 and 59, a month between 1 and 12 and a year between 0 and 99:
    the month is always one of the calendar, the day need not be. *)
Theorem ssn_get_birthday_ranges s :
  ssn_isvalid (PyStr s) = true ->
  exists day month year,
    ssn_get_birthday (PyStr s)
    = Ok (fmt_02d day ++ text "/" ++ fmt_02d month ++ text "/" ++ fmt_02d year)
    /\ -40 <= day <= 59 /\ 1 <= month <= 12 /\ 0 <= year <= 99.
Proof.
  intros Hv. rewrite (ssn_get_birthday_valid s Hv).
  destruct (valid_code_fields s Hv)
    as (pre & y1 & y2 & m & d1 & d2 & post & -> & Hpre & Hy1 & Hy2 & Hm & Hd1 & Hd2).
  do 7 (destruct pre as [|? pre]; try discriminate Hpre). clear Hpre.
  eexists _, _, _. split; [reflexivity|].
  unfold two_digits. cbn [app nth].
  pose proof (digit_value_bounds _ Hy1). pose proof (digit_value_bounds _ Hy2).
  pose proof (digit_value_bounds _ Hd1). pose proof (digit_value_bounds _ Hd2).
  pose proof (month_number_bounds m Hm).
  split; [|split; lia].
  unfold and_or, int_truthy.
  destruct (Z.ltb_spec (10 * digit_value d1 + digit_value d2) 32);
    [destruct (Z.eqb_spec (10 * digit_value d1 + digit_value d2) 0); cbn [negb]|];
    lia.
Qed.

End AfterIsValid.

(** ** The further properties at concrete inputs *)

Ltac chars_differ := let H := fresh in intros H; vm_compute in H; discriminate H.

(** X2 at the integer 7 and at ["RCCMNL83S18D969H"]. *)
Lemma decoders_assert_ssn_isvalid_witness :
  (@ssn_get_birthday ascii_only (PyInt 7) = Raise AssertionError
   /\ @ssn_get_sex ascii_only (PyInt 7) = Raise AssertionError
   /\ ssn_get_municipality one_place (PyInt 7) = Raise AssertionError)
  /\ exists birthday sex place,
       @ssn_get_birthday ascii_only (PyStr (text "RCCMNL83S18D969H")) = Ok birthday
       /\ @ssn_get_sex ascii_only (PyStr (text "RCCMNL83S18D969H")) = Ok sex
       /\ ssn_get_municipality one_place (PyStr (text "RCCMNL83S18D969H")) = Ok place.
Proof.
  split.
  - apply (proj1 (@decoders_assert_ssn_isvalid ascii_only one_place (PyInt 7))).
    reflexivity.
  - apply (proj2 (@decoders_assert_ssn_isvalid ascii_only one_place
                    (PyStr (text "RCCMNL83S18D969H")))).
    reflexivity.
Defined.

(** X3 at ["CNTCHR83T41D969D"], whose day field is 41. *)
Lemma ssn_get_birthday_spec_nonzero_witness :
  @ssn_get_birthday ascii_only (PyStr (text "CNTCHR83T41D969D")) = Ok (text "01/12/83").
Proof.
  apply (@ssn_get_birthday_spec_nonzero ascii_only (text "CNTCHR83T41D969D"));
    [reflexivity | chars_differ].
Defined.

(** X4 at ["RCCMNL83S18D969H"], with a table that knows ["D969"]. *)
Lemma ssn_get_municipality_key_witness :
  ssn_get_municipality one_place (PyStr (text "RCCMNL83S18D969H")) = Ok (text "Genova")
  /\ ssn_get_municipality one_place (PyStr (text "RCCMNL83S18D969H" ++ [LF]))
     = Ok (text "Altro").
Proof.
  apply (ssn_get_municipality_key one_place (text "RCCMNL83S18D969H")). reflexivity.
Defined.

(** X5 at the empty string. *)
Lemma ssn_check_digit_short_witness :
  @ssn_check_digit ascii_only [] = Raise IndexError
  /\ @ssn_validation ascii_only [] = Raise IndexError.
Proof.
  apply (@ssn_check_digit_short ascii_only []); [vm_compute; lia | reflexivity].
Defined.

(** X6 at a code in lower case and the same code in capitals with a tail. *)
Lemma ssn_check_digit_first_15_witness :
  @ssn_check_digit ascii_only (text "rccmnl83s18d969h")
  = @ssn_check_digit ascii_only (text "RCCMNL83S18D969 and more").
Proof.
  apply (@ssn_check_digit_first_15 ascii_only). reflexivity.
Defined.

(** X7 at ["RCCMNL83S18D969H"]. *)
Lemma ssn_validation_returns_witness :
  text "RCCMNL83S18D969H" = text "RCCMNL83S18D969H"
  /\ exists c, text "RCCMNL83S18D969H" !! 15%nat = Some c /\ is_upper c = true
               /\ @ssn_check_digit ascii_only (text "RCCMNL83S18D969H") = Ok [c].
Proof.
  apply (@ssn_validation_returns ascii_only (text "RCCMNL83S18D969H")). reflexivity.
Defined.

(** X8 at ["RCCMNL83S18D969H"] followed by [" (copy)"]. *)
Lemma ssn_validation_ignores_tail_witness :
  @ssn_validation ascii_only (text "RCCMNL83S18D969H" ++ text " (copy)")
  = Ok (text "RCCMNL83S18D969H" ++ text " (copy)").
Proof.
  apply (proj2 (@ssn_validation_ignores_tail ascii_only (text "RCCMNL83S18D969H")
                  (text " (copy)") eq_refl eq_refl)).
  reflexivity.
Defined.

(** X9 at ["RCCMNL83S18D969H"], with ["I"] for its ["8"]. *)
Lemma ssn_check_digit_digit_as_letter_witness :
  @ssn_check_digit ascii_only (text "RCCMNL" ++ (ch "8" + 17)%N :: text "3S18D969H")
  = @ssn_check_digit ascii_only (text "RCCMNL" ++ ch "8" :: text "3S18D969H").
Proof.
  apply (@ssn_check_digit_digit_as_letter ascii_only). reflexivity.
Defined.

(** X10 at ["RCCMNL83S18D969H"], with day 19 for day 18. *)
Lemma ssn_check_digit_detects_substitution_witness :
  exists a b,
    @ssn_check_digit ascii_only (text "RCCMNL83S1" ++ ch "8" :: text "D969H") = Ok [a]
    /\ @ssn_check_digit ascii_only (text "RCCMNL83S1" ++ ch "9" :: text "D969H") = Ok [b]
    /\ a <> b.
Proof.
  apply (@ssn_check_digit_detects_substitution ascii_only);
    [vm_compute; lia | vm_compute; lia | reflexivity | reflexivity | chars_differ].
Defined.

(** X11 at ["12345670017"]. *)
Lemma vat_number_validation_eleven_digits_witness :
  exists c d,
    text "12345670017" !! 10%nat = Some c
    /\ @vat_number_check_digit ascii_only (PyStr (take 10 (text "12345670017"))) = Ok [d]
    /\ (@vat_number_validation ascii_only (PyStr (text "12345670017"))
        = Ok (text "12345670017") <-> c = d)
    /\ (@vat_number_validation ascii_only (PyStr (text "12345670017"))
        = Raise check_digit_mismatch <-> c <> d).
Proof.
  apply (@vat_number_validation_eleven_digits ascii_only (text "12345670017"));
    reflexivity.
Defined.

(** X12 at [" 12345670017 "], returned without its blanks. *)
Lemma vat_number_validation_returns_witness :
  forallb is_digit (text "12345670017") = true
  /\ (11 <= length (text "12345670017"))%nat
  /\ @py_int ascii_only (PyStr (text " 12345670017 "))
     = Ok (Z.of_N (digits_value (text "12345670017")))
  /\ (exists c, text "12345670017" !! 10%nat = Some c
        /\ @vat_number_check_digit ascii_only (PyStr (take 10 (text "12345670017")))
           = Ok [c])
  /\ ((11 < length (text "12345670017"))%nat
      -> text "12345670017" !! 0%nat <> Some (ch "0")).
Proof.
  apply (@vat_number_validation_returns ascii_only (PyStr (text " 12345670017 "))).
  reflexivity.
Defined.

(** X13 at ["12345670017"], with a 1 for the 0 at index 7. *)
Lemma vat_number_validation_detects_one_wrong_digit_witness :
  @vat_number_validation ascii_only (PyStr (text "1234567" ++ ch "1" :: text "017"))
  = Raise check_digit_mismatch.
Proof.
  apply (@vat_number_validation_detects_one_wrong_digit ascii_only
           (text "1234567") (ch "0") (ch "1") (text "017"));
    [reflexivity | reflexivity | reflexivity | chars_differ | reflexivity].
Defined.

(** X14 at the payload ["4567001"]. *)
Lemma vat_number_check_digit_then_validation_witness :
  exists d,
    @vat_number_check_digit ascii_only (PyStr (text "4567001")) = Ok [d]
    /\ is_digit d = true
    /\ @vat_number_validation ascii_only (PyStr (text "4567001" ++ [d]))
       = Ok (zfill (text "4567001") 10 ++ [d]).
Proof.
  apply (@vat_number_check_digit_then_validation ascii_only (text "4567001"));
    [reflexivity | vm_compute; lia].
Defined.

(** X16 at ["1234567001"], with letters behind. *)
Lemma vat_number_check_digit_ignores_tail_witness :
  @vat_number_check_digit ascii_only (PyStr (text "1234567001" ++ text "-IT"))
  = @vat_number_check_digit ascii_only (PyStr (text "1234567001")).
Proof.
  apply (@vat_number_check_digit_ignores_tail ascii_only); reflexivity.
Defined.

(** X17 and X18 at ["RCCMNL83S18D969H"]. *)
Lemma ssn_validation_after_ssn_isvalid_witness :
  exists c,
    @ssn_check_digit ascii_only (text "RCCMNL83S18D969H") = Ok [c]
    /\ is_upper c = true
    /\ (@ssn_validation ascii_only (text "RCCMNL83S18D969H")
        = Ok (text "RCCMNL83S18D969H")
        \/ @ssn_validation ascii_only (text "RCCMNL83S18D969H")
           = Raise check_digit_mismatch).
Proof.
  apply (@ssn_validation_after_ssn_isvalid ascii_only (text "RCCMNL83S18D969H")).
  reflexivity.
Defined.

Lemma ssn_get_birthday_ranges_witness :
  exists day month year,
    @ssn_get_birthday ascii_only (PyStr (text "RCCMNL83S18D969H"))
    = Ok (fmt_02d day ++ text "/" ++ fmt_02d month ++ text "/" ++ fmt_02d year)
    /\ -40 <= day <= 59 /\ 1 <= month <= 12 /\ 0 <= year <= 99.
Proof.
  apply (@ssn_get_birthday_ranges ascii_only (text "RCCMNL83S18D969H")).
  reflexivity.
Defined.

(** ** Two neighbouring digits exchanged *)

Lemma luhn_digit_exchange a b :
  0 <= a <= 9 -> 0 <= b <= 9 -> a <> b ->
  ~ (a = 0 /\ b = 9) -> ~ (a = 9 /\ b = 0) ->
  (a + luhn_digit b - (b + luhn_digit a)) mod 10 <> 0
  /\ (luhn_digit a + b - (luhn_digit b + a)) mod 10 <> 0.
Proof.
  intros Ha Hb Hne H09 H90. unfold luhn_digit.
  split; Z.div_mod_to_equations; lia.
Qed.

Section VatTranspositions.
Context `{py : Interpreter}.

Lemma vat_number_validation_criterion_iff s :
  length s = 11%nat -> forallb is_digit s = true ->
  vat_number_validation (PyStr s) = Ok s
  <-> digit_value (nth 10 s 0%N) = (10 - vat_sum s mod 10) mod 10.
Proof.
  intros Hl Hs. destruct (vat_number_validation_criterion s Hl Hs) as [Hok Hbad].
  split; [|done]. intros Hv.
  destruct (Z.eq_dec (digit_value (nth 10 s 0%N)) ((10 - vat_sum s mod 10) mod 10))
    as [E|E]; [done|].
  rewrite (Hbad E) in Hv. discriminate Hv.
Qed.

Lemma forallb_swap (p : N -> bool) pre x y post :
  forallb p (pre ++ x :: y :: post) = true ->
  forallb p (pre ++ y :: x :: post) = true /\ p x = true /\ p y = true.
Proof.
  rewrite !forallb_app. cbn [forallb].
  intros [Hp [Hx [Hy Hq]%andb_true_iff]%andb_true_iff]%andb_true_iff.
  by rewrite Hp, Hx, Hy, Hq.
Qed.

(** X19. Among the ten digits of the payload, exchanging two neighbours that
    differ is detected, unless they are 0 and 9: when a string of 11 digits
    validates, the string with the two exchanged is refused. *)
Theorem vat_number_validation_detects_exchange pre x y post :
  length (pre ++ x :: y :: post) = 11%nat -> (length pre <= 8)%nat ->
  forallb is_digit (pre ++ x :: y :: post) = true ->
  x <> y -> ~ (x = ch "0" /\ y = ch "9") -> ~ (x = ch "9" /\ y = ch "0") ->
  vat_number_validation (PyStr (pre ++ x :: y :: post)) = Ok (pre ++ x :: y :: post) ->
  vat_number_validation (PyStr (pre ++ y :: x :: post)) = Raise check_digit_mismatch.
Proof.
  intros Hl Hpre Hs Hne H09 H90 Hok.
  destruct (forallb_swap is_digit pre x y post Hs) as (Hs' & Hx & Hy).
  assert (Hl' : length (pre ++ y :: x :: post) = 11%nat)
    by (rewrite length_app in *; cbn [length] in *; lia).
  apply (vat_number_validation_criterion_iff _ Hl Hs) in Hok.
  apply (proj2 (vat_number_validation_criterion _ Hl' Hs')).
  pose proof (digit_value_bounds x Hx) as Hbx.
  pose proof (digit_value_bounds y Hy) as Hby.
  assert (Hdv : digit_value x <> digit_value y)
    by (intros E; by apply Hne, digit_value_inj).
  assert (Hd09 : ~ (digit_value x = 0 /\ digit_value y = 9)).
  { intros [E0 E9]. apply H09. split.
    - by apply digit_value_inj.
    - by apply digit_value_inj. }
  assert (Hd90 : ~ (digit_value x = 9 /\ digit_value y = 0)).
  { intros [E9 E0]. apply H90. split.
    - by apply digit_value_inj.
    - by apply digit_value_inj. }
  destruct (luhn_digit_exchange _ _ Hbx Hby Hdv Hd09 Hd90) as [He Ho].
  revert Hok. clear Hs Hs' Hl'.
  do 9 (destruct pre as [|? pre];
        [unfold vat_sum; cbn [app nth map foldr]; intros Hok;
         Z.div_mod_to_equations; lia|]).
  cbn [length] in Hpre. lia.
Qed.

(** X20. A 0 and a 9 that are neighbours among the ten digits of the payload
    can be exchanged unnoticed: the one string validates exactly when the
    other does. *)
Theorem vat_number_validation_misses_09_90 pre post :
  length (pre ++ ch "0" :: ch "9" :: post) = 11%nat -> (length pre <= 8)%nat ->
  forallb is_digit (pre ++ ch "0" :: ch "9" :: post) = true ->
  vat_number_validation (PyStr (pre ++ ch "0" :: ch "9" :: post))
  = Ok (pre ++ ch "0" :: ch "9" :: post)
  <-> vat_number_validation (PyStr (pre ++ ch "9" :: ch "0" :: post))
      = Ok (pre ++ ch "9" :: ch "0" :: post).
Proof.
  intros Hl Hpre Hs.
  destruct (forallb_swap is_digit pre _ _ post Hs) as (Hs' & _ & _).
  assert (Hl' : length (pre ++ ch "9" :: ch "0" :: post) = 11%nat)
    by (rewrite length_app in *; cbn [length] in *; lia).
  rewrite (vat_number_validation_criterion_iff _ Hl Hs),
    (vat_number_validation_criterion_iff _ Hl' Hs').
  assert (H0 : digit_value (ch "0") = 0) by reflexivity.
  assert (H9 : digit_value (ch "9") = 9) by reflexivity.
  assert (L0 : luhn_digit 0 = 0) by reflexivity.
  assert (L9 : luhn_digit 9 = 9) by reflexivity.
  clear Hs Hs' Hl'.
  do 9 (destruct pre as [|? pre];
        [unfold vat_sum; cbn [app nth map foldr];
         rewrite ?H0, ?H9, ?L0, ?L9; split; intros Hok;
         Z.div_mod_to_equations; lia|]).
  cbn [length] in Hpre. lia.
Qed.

End VatTranspositions.

(** X19 at ["12345670017"], with its 3 and 4 exchanged. *)
Lemma vat_number_validation_detects_exchange_witness :
  @vat_number_validation ascii_only (PyStr (text "12" ++ ch "4" :: ch "3" :: text "5670017"))
  = Raise check_digit_mismatch.
Proof.
  apply (@vat_number_validation_detects_exchange ascii_only
           (text "12") (ch "3") (ch "4") (text "5670017"));
    [reflexivity | vm_compute; lia | reflexivity
    | intros H; vm_compute in H; discriminate H
    | intros [H _]; vm_compute in H; discriminate H
    | intros [H _]; vm_compute in H; discriminate H
    | reflexivity].
Defined.

(** X20 at ["10900000000"], which validates, and so does ["19000000000"]. *)
Lemma vat_number_validation_misses_09_90_witness :
  @vat_number_validation ascii_only
    (PyStr (text "1" ++ ch "9" :: ch "0" :: text "00000000"))
  = Ok (text "1" ++ ch "9" :: ch "0" :: text "00000000").
Proof.
  apply (proj1 (@vat_number_validation_misses_09_90 ascii_only
                  (text "1") (text "00000000") eq_refl
                  ltac:(vm_compute; lia) eq_refl)).
  reflexivity.
Defined.

(** ** Numbers of more digits than the interpreter converts *)

Lemma digits_value_app_zeros s k :
  digits_value (s ++ replicate k (ch "0")) = (digits_value s * 10 ^ N.of_nat k)%N.
Proof.
  unfold digits_value. rewrite fold_left_app. generalize (fold_left
    (fun acc c => (10 * acc + (c - ch "0"))%N) s 0%N). intros acc.
  revert acc. induction k as [|k IH]; intros acc.
  - cbn. lia.
  - cbn [replicate fold_left]. rewrite IH, Nat2N.inj_succ, N.pow_succ_r'.
    replace (ch "0" - ch "0")%N with 0%N by reflexivity. lia.
Qed.

(** The number of digits of a number, from the powers of ten around it. *)
Lemma length_str_of_N_between n k :
  (10 ^ N.of_nat k <= n < 10 ^ N.of_nat (S k))%N -> length (str_of_N n) = S k.
Proof.
  intros [Hlo Hhi].
  pose proof (proj1 (length_str_of_N n (S k) ltac:(lia)) Hhi) as Hle.
  assert (k < length (str_of_N n))%nat; [|lia].
  destruct k as [|k].
  - pose proof (str_of_N_nonempty n). destruct (str_of_N n); [done|cbn; lia].
  - by apply (length_str_of_N n (S k)); [lia|].
Qed.

Lemma str_of_N_between n :
  (0 < n)%N ->
  (10 ^ N.of_nat (length (str_of_N n) - 1) <= n < 10 ^ N.of_nat (length (str_of_N n)))%N.
Proof.
  intros Hn. set (m := length (str_of_N n)). split.
  - destruct (N.le_gt_cases (10 ^ N.of_nat (m - 1)) n) as [|Hlt]; [done|exfalso].
    destruct (Nat.le_gt_cases (m - 1) 0) as [Hm|Hm].
    + replace (m - 1)%nat with 0%nat in Hlt by lia. cbn in Hlt. lia.
    + pose proof (proj1 (length_str_of_N n (m - 1) ltac:(lia)) Hlt). lia.
  - destruct (N.le_gt_cases (10 ^ N.of_nat m) n) as [Hge|]; [exfalso|done].
    destruct (Nat.le_gt_cases m 0) as [Hm|Hm].
    + pose proof (str_of_N_nonempty n) as Hne. unfold m in Hm.
      destruct (str_of_N n); [done|cbn in Hm; lia].
    + pose proof (proj2 (length_str_of_N n m ltac:(lia)) Hge). lia.
Qed.

(** The decimal representation of [a * 10^k] is that of [a], then [k]
    zeros. *)
Lemma str_of_N_shift a k :
  (0 < a)%N ->
  str_of_N (a * 10 ^ N.of_nat k) = str_of_N a ++ replicate k (ch "0").
Proof.
  intros Ha. destruct (str_of_N_between a Ha) as [Hlo Hhi].
  set (m := length (str_of_N a)) in *.
  assert (Hm : (1 <= m)%nat).
  { pose proof (str_of_N_nonempty a) as Hne. unfold m.
    destruct (str_of_N a); [done|cbn; lia]. }
  assert (Hpos : (0 < 10 ^ N.of_nat k)%N) by (apply N.neq_0_lt_0, N.pow_nonzero; lia).
  apply digits_value_inj.
  - apply str_of_N_digits.
  - by rewrite forallb_app, str_of_N_digits, forallb_replicate_zero.
  - rewrite length_app, length_replicate. fold m.
    replace (m + k)%nat with (S (m - 1 + k)) by lia.
    apply length_str_of_N_between. split.
    + rewrite Nat2N.inj_add, N.pow_add_r. by apply N.mul_le_mono_r.
    + replace (S (m - 1 + k)) with (m + k)%nat by lia.
      rewrite Nat2N.inj_add, N.pow_add_r. by apply N.mul_lt_mono_pos_r.
  - by rewrite digits_value_app_zeros, !digits_value_str_of_N.
Qed.

Lemma str_of_int_shift a k :
  0 < a ->
  str_of_int (a * 10 ^ Z.of_nat k) = str_of_int a ++ replicate k (ch "0").
Proof.
  intros Ha.
  assert (0 <= 10 ^ Z.of_nat k) by (apply Z.pow_nonneg; lia).
  rewrite !str_of_int_nonneg by nia.
  rewrite Z2N.inj_mul, Z2N.inj_pow by lia.
  rewrite <- nat_N_Z, N2Z.id. change (Z.to_N 10) with 10%N.
  apply str_of_N_shift. lia.
Qed.

Lemma number_of_4301_digits_text :
  str_of_int number_of_4301_digits
  = text "12345670017" ++ replicate 4290 (ch "0").
Proof.
  unfold number_of_4301_digits.
  change (10 ^ 4290) with (10 ^ Z.of_nat 4290).
  by rewrite str_of_int_shift.
Qed.

Lemma number_of_4301_digits_nonneg : 0 <= number_of_4301_digits.
Proof.
  unfold number_of_4301_digits.
  apply Z.mul_nonneg_nonneg; [discriminate|]. apply Z.pow_nonneg. discriminate.
Qed.

Lemma count_digits_number_of_4301_digits :
  N.of_nat (count_digits number_of_4301_digits) = 4301%N.
Proof.
  rewrite count_digits_nonneg by apply number_of_4301_digits_nonneg.
  rewrite number_of_4301_digits_text, length_app, length_replicate.
  vm_compute. reflexivity.
Qed.

(** C10, as the claim states it, fails at the integer of 4301 digits
    [12345670017 * 10^4290] on an interpreter with the default limit of 4300
    digits: [int] accepts it, the character at index 10 of its decimal
    representation is the check digit of the first ten, and the call does not
    return that representation: [str] raises its [ValueError]. *)
Lemma vat_number_validation_refuses_4301_digits :
  @py_int ascii_only (PyInt number_of_4301_digits) = Ok number_of_4301_digits
  /\ 0 <= number_of_4301_digits
  /\ N.of_nat (length (str_of_int number_of_4301_digits)) = 4301%N
  /\ str_of_int number_of_4301_digits !! 10%nat = Some (ch "7")
  /\ @vat_number_check_digit ascii_only
       (PyStr (slice (str_of_int number_of_4301_digits) 0 10)) = Ok [ch "7"]
  /\ @vat_number_validation ascii_only (PyInt number_of_4301_digits)
     = Raise ExceedsDigitLimit.
Proof.
  split; [reflexivity|]. split; [apply number_of_4301_digits_nonneg|].
  split; [|split; [|split]].
  - rewrite <- count_digits_nonneg by apply number_of_4301_digits_nonneg.
    apply count_digits_number_of_4301_digits.
  - by rewrite number_of_4301_digits_text.
  - rewrite number_of_4301_digits_text. vm_compute. reflexivity.
  - apply vat_number_validation_exceeds. unfold exceeds_limit.
    change (@int_max_str_digits ascii_only) with (Some 4300%N).
    by rewrite count_digits_number_of_4301_digits.
Qed.

(** C10, amended, at [" 123456700170 "], which [int] reads as a number of 12
    digits, and at the number of 4301 digits above on an interpreter without
    a limit. *)
Lemma vat_number_validation_no_upper_bound_witness :
  @vat_number_validation ascii_only (PyStr (text " 123456700170 "))
  = Ok (text "123456700170")
  /\ @vat_number_validation ascii_no_limit (PyInt number_of_4301_digits)
     = Ok (str_of_int number_of_4301_digits).
Proof.
  split.
  - pose proof (proj1 (@vat_number_validation_no_upper_bound ascii_only)
                  (PyStr (text " 123456700170 ")) 123456700170 eq_refl
                  ltac:(discriminate) ltac:(vm_compute; lia) eq_refl)
      as (_ & _ & Hok).
    apply (Hok (ch "7")); reflexivity.
  - assert (Hlen : (11 < length (str_of_int number_of_4301_digits))%nat).
    { rewrite number_of_4301_digits_text, length_app, length_replicate.
      apply Nat.ltb_lt. vm_compute. reflexivity. }
    pose proof (proj1 (@vat_number_validation_no_upper_bound ascii_no_limit)
                  (PyInt number_of_4301_digits) number_of_4301_digits eq_refl
                  number_of_4301_digits_nonneg Hlen eq_refl)
      as (_ & _ & Hok).
    apply (Hok (ch "7")).
    + by rewrite number_of_4301_digits_text.
    + rewrite number_of_4301_digits_text. vm_compute. reflexivity.
Defined.
